(** * beszel agent: sensor configuration, filtering and collection

    A shallow embedding of [internal/agent/sensors.go]: the [SENSORS]
    configuration parser, the whitelist/blacklist filter, the temperature
    collector with its panic boundary, and the file backed generic sensor
    collector.  Go values are modelled as they are in the program:
    strings are byte strings, [float64] is the kernel's binary64 [float],
    maps are [gmap]s (a nil map is [None]), and a run time panic is the
    [Panic] outcome of the [result] type. *)

From Stdlib Require Uint63.
From Stdlib Require Import Floats ZArith Ascii String DecimalString Permutation.
From stdpp Require Import gmap strings list fin_maps.

#[local] Set Warnings "-inexact-float".
#[local] Open Scope Z_scope.

(** ** Go run time: outcomes of a call that may panic *)

Inductive result (A : Type) : Type :=
  | Ok (a : A)
  | Panic (msg : string).
Arguments Ok {A} a.
Arguments Panic {A} msg.

(** ** Go strings *)

Module Strings.

Definition len (s : string) : Z := Z.of_nat (String.length s).

(** [s[lo:hi]]: panics unless [0 <= lo <= hi <= len(s)]. *)
Definition slice (s : string) (lo hi : Z) : result string :=
  if bool_decide (0 ≤ lo ∧ lo ≤ hi ∧ hi ≤ len s)
  then Ok (String.substring (Z.to_nat lo) (Z.to_nat (hi - lo)) s)
  else Panic "slice bounds out of range".

(** [s[lo:]] *)
Definition sliceFrom (s : string) (lo : Z) : result string :=
  slice s lo (len s).

Definition HasPrefix (s prefix : string) : bool := String.prefix prefix s.

Definition HasSuffix (s suffix : string) : bool :=
  String.prefix (String.rev suffix) (String.rev s).

(** [strings.Contains(s, substr)] *)
Fixpoint Contains (s substr : string) : bool :=
  String.prefix substr s ||
  match s with
  | EmptyString => false
  | String _ s' => Contains s' substr
  end.

(** [strings.Split(s, sep)] and [strings.SplitSeq(s, sep)] for a separator
    of one byte, which is the only way the agent calls them ([","]). *)
Fixpoint Split (s : string) (sep : ascii) : list string :=
  match s with
  | EmptyString => [EmptyString]
  | String c s' =>
      if bool_decide (c = sep) then EmptyString :: Split s' sep
      else match Split s' sep with
           | h :: t => String c h :: t
           | [] => [String c EmptyString]
           end
  end.

(** White space as [unicode.IsSpace] has it.  The six ASCII ones ... *)
Definition asciiSpace (c : ascii) : bool :=
  match c with
  | "009" | "010" | "011" | "012" | "013" | " " => true
  | _ => false
  end%char.

Definition ofBytes (l : list nat) : string :=
  string_of_list_ascii (map ascii_of_nat l).

(** ... and the UTF-8 encodings of U+0085, U+00A0, U+1680, U+2000 to
    U+200A, U+2028, U+2029, U+202F, U+205F and U+3000. *)
Definition utf8Space : list string :=
  map ofBytes
    [ [194; 133]; [194; 160]; [225; 154; 128];
      [226; 128; 128]; [226; 128; 129]; [226; 128; 130]; [226; 128; 131];
      [226; 128; 132]; [226; 128; 133]; [226; 128; 134]; [226; 128; 135];
      [226; 128; 136]; [226; 128; 137]; [226; 128; 138];
      [226; 128; 168]; [226; 128; 169]; [226; 128; 175];
      [226; 129; 159]; [227; 128; 128] ]%nat.

Fixpoint dropPrefix (p s : string) : option string :=
  match p, s with
  | EmptyString, _ => Some s
  | String a p', String b s' =>
      if bool_decide (a = b) then dropPrefix p' s' else None
  | String _ _, EmptyString => None
  end.

Fixpoint firstSome {A B} (f : A → option B) (l : list A) : option B :=
  match l with
  | [] => None
  | x :: l' => match f x with Some y => Some y | None => firstSome f l' end
  end.

(** Removes one white space rune, encoded by one of [encs], from the
    front of [s]. *)
Definition stripSpace (encs : list string) (s : string) : option string :=
  match s with
  | EmptyString => None
  | String c s' =>
      if asciiSpace c then Some s'
      else firstSome (fun e => dropPrefix e s) encs
  end.

Fixpoint trimFront (encs : list string) (fuel : nat) (s : string) : string :=
  match fuel with
  | O => s
  | S fuel' =>
      match stripSpace encs s with
      | Some s' => trimFront encs fuel' s'
      | None => s
      end
  end.

Definition TrimLeftSpace (s : string) : string :=
  trimFront utf8Space (String.length s) s.

(** The last rune of a string is a white space when the string ends with
    its encoding: trimming on the right is trimming the reversed string
    on the left, against the reversed encodings. *)
Definition TrimRightSpace (s : string) : string :=
  String.rev
    (trimFront (map String.rev utf8Space) (String.length s) (String.rev s)).

(** [strings.TrimSpace] *)
Definition TrimSpace (s : string) : string :=
  TrimRightSpace (TrimLeftSpace s).

End Strings.

Module Strconv.

(** [strconv.Itoa] *)
Definition Itoa (i : Z) : string := NilZero.string_of_int (Z.to_int i).

End Strconv.

(** ** float64 *)

Module F64.

(** Go's comparison operators on [float64]. *)
Definition lt (x y : float) : bool := PrimFloat.ltb x y.
Definition le (x y : float) : bool := PrimFloat.leb x y.
Definition gt (x y : float) : bool := PrimFloat.ltb y x.
Definition ge (x y : float) : bool := PrimFloat.leb y x.
Definition ne (x y : float) : bool := negb (PrimFloat.eqb x y).

(** The builtin [max] on two floats: NaN when either is NaN, and the
    positive zero when the arguments are the two zeros. *)
Definition max (x y : float) : float :=
  if PrimFloat.is_nan x || PrimFloat.is_nan y then PrimFloat.nan
  else if PrimFloat.ltb x y then y
  else if PrimFloat.ltb y x then x
  else if PrimFloat.get_sign x then y else x.

End F64.

(** ** The parts of the platform the agent calls but does not define

    [strconv.ParseFloat(s, 64)] ([None] is its error), [path.Match] (the
    matched flag and the error), [utf8.ValidString] and [runtime.GOOS]
    belong to the Go distribution; the development holds for every
    behaviour of theirs. *)

Class GoEnv := {
  GOOS : string;
  ParseFloat : string → option float;
  pathMatch : string → string → bool * option string;
  ValidString : string → bool;
}.

(** ** The world a collection cycle runs in *)

Inductive Level := Debug | Info | Warn.

(** One [slog] record: its level, its message and the value of its first
    attribute (the sensor or token it is about). *)
Record LogEntry := { lvl : Level; msg : string; about : string }.

(** An entry of the file system as [os.Stat] and [os.ReadFile] see it, that
    is after symbolic links are followed: what reading it yields ([None]
    when the read fails), whether it has execute permission, and what it
    would print if it were run. *)
Record DirEntry := {
  contents : option string;
  executable : bool;
  stdout : string;
}.

Record World := {
  logs : list LogEntry;
  sourceCalls : nat;
  fs : gmap string DirEntry;
}.

Inductive outcome (A : Type) : Type :=
  | Return (a : A) (w : World)
  | Panicked (r : string) (w : World).
Arguments Return {A} a w.
Arguments Panicked {A} r w.

(** Go code: it reads and changes the world, and returns or panics. *)
Definition Go (A : Type) : Type := World → outcome A.

#[global] Instance Go_ret : MRet Go := λ A a w, Return a w.

#[global] Instance Go_bind : MBind Go := λ A B k m w,
  match m w with
  | Return a w' => k a w'
  | Panicked r w' => Panicked r w'
  end.

Definition lift {A} (r : result A) : Go A := λ w,
  match r with
  | Ok a => Return a w
  | Panic m => Panicked m w
  end.

Definition slog (l : Level) (m a : string) : Go () := λ w,
  Return ()
    {| logs := logs w ++ [ {| lvl := l; msg := m; about := a |} ];
       sourceCalls := sourceCalls w; fs := fs w |}.

(** ** Data model *)

Record GenericSensorConfig := {
  Name : string;
  Unit : string;
  Maximum : float;
  Minimum : float;
}.

(** [context] holds the [HostSysEnvKey] override of the sensors context,
    when [SYS_SENSORS] is set. *)
Record SensorConfig := {
  context : option string;
  sensors : gset string;
  genericSensors : gmap string GenericSensorConfig;
  primarySensor : string;
  isBlacklist : bool;
  hasWildcards : bool;
  skipCollection : bool;
}.

(** [sensors.TemperatureStat] of gopsutil: the two fields the agent reads. *)
Record TemperatureStat := {
  SensorKey : string;
  Temperature : float;
}.

Module system.

Record SensorData := {
  Value : float;
  Unit : string;
  Min : float;
  Max : float;
}.

(** A nil map is [None]. *)
Record Stats := {
  Temperatures : option (gmap string float);
  GenericSensors : option (gmap string SensorData);
}.

Record Info := { DashboardTemp : float }.

End system.

Record Agent := {
  sensorConfig : SensorConfig;
  systemInfo : system.Info;
}.

(** ** Numeric helpers *)

(** The nearest integer, halves away from zero ([math.Round]).  A finite
    binary64 with a non-negative exponent is an integer already; otherwise
    the mantissa is below [2^53] and the rounded integer converts exactly. *)
Definition roundHalfAway (x : float) : float :=
  match Prim2SF x with
  | S754_finite s m e =>
      if 0 <=? e then x
      else
        let d := 2 ^ (- e) in
        let q := Z.pos m / d in
        let r := Z.pos m mod d in
        let n := if d <=? 2 * r then q + 1 else q in
        let a := PrimFloat.of_uint63 (Uint63.of_Z n) in
        if s then (- a)%float else a
  | _ => x
  end.

(** Modelled from the spec: [twoDecimals] is a helper of the agent package
    that [sensors.go] calls and that is defined in another file.  The spec
    names it round2, a value rounded to two decimal places: the value times
    one hundred, rounded to the nearest integer, over one hundred. *)
Definition twoDecimals (value : float) : float :=
  (roundHalfAway (value * 100) / 100)%float.

(** [scaleTemperature] scales temperatures in fractional values to
    reasonable Celsius values. *)
Definition scaleTemperature (temp : float) : float :=
  if F64.gt temp 1 then temp
  else
    let scaled100 := (temp * 100)%float in
    let scaled1000 := (temp * 1000)%float in
    if F64.ge scaled100 15 && F64.le scaled100 95 then scaled100
    else if F64.ge scaled1000 15 && F64.le scaled1000 95 then scaled1000
    else scaled100.

(** The band [[15,95]] the heuristic aims at. *)
Definition inBand (x : float) : bool := F64.le 15 x && F64.le x 95.

(** What the caller's plausibility check lets through. *)
Definition plausible (x : float) : bool := negb (F64.le x 0 || F64.ge x 200).

(** ** Config parser *)

Inductive ParseError :=
  | ErrParts (got : nat)
  | ErrEmptyName
  | ErrEmptyUnit
  | ErrMaximum (maximumStr : string)
  | ErrMinimum (minimumStr : string)
  | ErrMinNotBelowMax (minimum maximum : float).

Definition setGenericSensor (config : SensorConfig) (name : string)
    (g : GenericSensorConfig) : SensorConfig :=
  {| context := context config;
     sensors := sensors config;
     genericSensors := <[name := g]> (genericSensors config);
     primarySensor := primarySensor config;
     isBlacklist := isBlacklist config;
     hasWildcards := hasWildcards config;
     skipCollection := skipCollection config |}.

Definition addSensor (config : SensorConfig) (sensor : string) : SensorConfig :=
  {| context := context config;
     sensors := {[ sensor ]} ∪ sensors config;
     genericSensors := genericSensors config;
     primarySensor := primarySensor config;
     isBlacklist := isBlacklist config;
     hasWildcards := hasWildcards config;
     skipCollection := skipCollection config |}.

Definition setHasWildcards (config : SensorConfig) : SensorConfig :=
  {| context := context config;
     sensors := sensors config;
     genericSensors := genericSensors config;
     primarySensor := primarySensor config;
     isBlacklist := isBlacklist config;
     hasWildcards := true;
     skipCollection := skipCollection config |}.

Definition setIsBlacklist (config : SensorConfig) : SensorConfig :=
  {| context := context config;
     sensors := sensors config;
     genericSensors := genericSensors config;
     primarySensor := primarySensor config;
     isBlacklist := true;
     hasWildcards := hasWildcards config;
     skipCollection := skipCollection config |}.

Definition setContext (config : SensorConfig) (sysSensors : string) : SensorConfig :=
  {| context := Some sysSensors;
     sensors := sensors config;
     genericSensors := genericSensors config;
     primarySensor := primarySensor config;
     isBlacklist := isBlacklist config;
     hasWildcards := hasWildcards config;
     skipCollection := skipCollection config |}.

Section Parser.
Context `{GoEnv}.

(** [parseGenericSensor] parses a generic sensor configuration in the
    format "(name,unit,maximum,minimum)".  It returns its error and the
    configuration, which it changes only when it returns no error. *)
Definition parseGenericSensor (sensor : string) (config : SensorConfig)
    : Go (option ParseError * SensorConfig) :=
  content ← lift (Strings.slice sensor 1 (Strings.len sensor - 1));
  match Strings.Split content "," with
  | [p0; p1; p2; p3] =>
      let name := Strings.TrimSpace p0 in
      let unit := Strings.TrimSpace p1 in
      let maximumStr := Strings.TrimSpace p2 in
      let minimumStr := Strings.TrimSpace p3 in
      if bool_decide (name = "") then mret (Some ErrEmptyName, config)
      else if bool_decide (unit = "") then mret (Some ErrEmptyUnit, config)
      else
        match ParseFloat maximumStr with
        | None => mret (Some (ErrMaximum maximumStr), config)
        | Some maximum =>
            match ParseFloat minimumStr with
            | None => mret (Some (ErrMinimum minimumStr), config)
            | Some minimum =>
                if F64.ge minimum maximum
                then mret (Some (ErrMinNotBelowMax minimum maximum), config)
                else
                  let config' :=
                    setGenericSensor config name
                      {| Name := name; Unit := unit;
                         Maximum := maximum; Minimum := minimum |} in
                  _ ← slog Info "Configured generic sensor" name;
                  mret (None, config')
            end
        end
  | parts => mret (Some (ErrParts (length parts)), config)
  end.

(** The body of the loop over the comma separated tokens. *)
Definition parseToken (sensor : string) (config : SensorConfig)
    : Go SensorConfig :=
  let sensor := Strings.TrimSpace sensor in
  if bool_decide (sensor ≠ "") then
    if Strings.HasPrefix sensor "(" && Strings.HasSuffix sensor ")" then
      '(err, config) ← parseGenericSensor sensor config;
      match err with
      | Some _ =>
          _ ← slog Warn "Invalid generic sensor format" sensor;
          mret config
      | None => mret config
      end
    else
      let config := addSensor config sensor in
      if Strings.Contains sensor "*" then mret (setHasWildcards config)
      else mret config
  else mret config.

Fixpoint parseTokens (tokens : list string) (config : SensorConfig)
    : Go SensorConfig :=
  match tokens with
  | [] => mret config
  | sensor :: rest =>
      config ← parseToken sensor config;
      parseTokens rest config
  end.

(** The world with the warning for a rejected token. *)
Definition warned (sensor : string) (w : World) : World :=
  {| logs := logs w ++ [ {| lvl := Warn;
                             msg := "Invalid generic sensor format";
                             about := Strings.TrimSpace sensor |} ];
     sourceCalls := sourceCalls w; fs := fs w |}.

(** A token that is rejected. *)
Definition rejected (sensor : string) (config : SensorConfig) (w : World)
    : Prop :=
  let token := Strings.TrimSpace sensor in
  token ≠ "" ∧
  Strings.HasPrefix token "(" = true ∧ Strings.HasSuffix token ")" = true ∧
  ∃ e config' w',
    parseGenericSensor token config w = Return (Some e, config') w'.

(** [newSensorConfigWithEnv] creates a SensorConfig with the provided
    environment variables. *)
Definition newSensorConfigWithEnv
    (primarySensor sysSensors sensorsEnvVal : string) (skipCollection : bool)
    : Go SensorConfig :=
  let config :=
    {| context := None;
       sensors := ∅;
       genericSensors := ∅;
       primarySensor := primarySensor;
       isBlacklist := false;
       hasWildcards := false;
       skipCollection := skipCollection |} in
  config ←
    (if bool_decide (sysSensors ≠ "") then
       _ ← slog Info "SYS_SENSORS" sysSensors;
       mret (setContext config sysSensors)
     else mret config);
  '(config, sensorsEnvVal) ←
    (if Strings.HasPrefix sensorsEnvVal "-" then
       rest ← lift (Strings.sliceFrom sensorsEnvVal 1);
       mret (setIsBlacklist config, rest)
     else mret (config, sensorsEnvVal));
  parseTokens (Strings.Split sensorsEnvVal ",") config.

End Parser.

(** ** Filter evaluator *)

Section Filter.
Context `{GoEnv}.

(** The loop over [config.sensors] that looks for a wildcard pattern,
    with the patterns enumerated in the order [order]: [Some v] when the
    loop returns [v], [None] when it runs to its end. *)
Fixpoint scanWildcards (order : list string) (sensorName : string)
    (config : SensorConfig) : option bool :=
  match order with
  | [] => None
  | pattern :: rest =>
      if negb (Strings.Contains pattern "*") then
        scanWildcards rest sensorName config
      else if (pathMatch pattern sensorName).1 then
        Some (negb (isBlacklist config))
      else scanWildcards rest sensorName config
  end.

(** [isValidSensor] checks if a sensor is valid based on the sensor name
    and the sensor config.  Go leaves the order in which [range] visits
    a map open; [order] is the one a run takes. *)
Definition isValidSensorIn (order : list string) (sensorName : string)
    (config : SensorConfig) : bool :=
  if bool_decide (is_Some (genericSensors config !! sensorName)) then true
  else if bool_decide (size (sensors config) = 0%nat) then true
  else if bool_decide (sensorName ∈ sensors config) then
    negb (isBlacklist config)
  else if negb (hasWildcards config) then isBlacklist config
  else
    match scanWildcards order sensorName config with
    | Some v => v
    | None => isBlacklist config
    end.

(** A pattern that makes the wildcard scan return. *)
Definition hits (name pattern : string) : Prop :=
  Strings.Contains pattern "*" = true ∧ (pathMatch pattern name).1 = true.

(** The run that visits the patterns in the order of [elements]. *)
Definition isValidSensor (sensorName : string) (config : SensorConfig)
    : bool :=
  isValidSensorIn (elements (sensors config)) sensorName config.

(** The decision procedure in the words of the specification. *)
Definition accept (name : string) (spec : SensorConfig) : bool :=
  if bool_decide (name ∈ dom (genericSensors spec)) then true
  else if bool_decide (sensors spec = ∅) then true
  else if bool_decide (name ∈ sensors spec) then negb (isBlacklist spec)
  else if negb (hasWildcards spec) then isBlacklist spec
  else if bool_decide
            (∃ pattern, pattern ∈ sensors spec ∧
               Strings.Contains pattern "*" = true ∧
               (pathMatch pattern name).1 = true)
       then negb (isBlacklist spec)
  else isBlacklist spec.

End Filter.

(** ** Temperature collector *)

(** What one invocation of the sensor source does. *)
Inductive SourceBehaviour :=
  | Panics (r : string)
  | Yields (temps : list TemperatureStat) (err : option string).

(** Matches [sensors.TemperaturesWithContext] to allow for panic recovery:
    a function of the sensors context. *)
Definition getTempsFn : Type :=
  option string → Go (list TemperatureStat * option string).

(** The sensor source of the agent: [source ctx n] is what its [n]-th
    invocation does; every invocation is counted in the world. *)
Definition getSensorTemps (source : option string → nat → SourceBehaviour)
    : getTempsFn := λ ctx w,
  let w' := {| logs := logs w; sourceCalls := S (sourceCalls w); fs := fs w |} in
  match source ctx (sourceCalls w) with
  | Panics r => Panicked r w'
  | Yields temps err => Return (temps, err) w'
  end.

(** [getTempsWithPanicRecovery] wraps the source to recover from panics.
    The error of the source is ignored; the only error is a recovered
    panic, and then no readings were assigned. *)
Definition getTempsWithPanicRecovery (a : Agent) (getTemps : getTempsFn)
    : Go (list TemperatureStat * option string) := λ w,
  match getTemps (context (sensorConfig a)) w with
  | Return (temps, _) w' => Return (temps, None) w'
  | Panicked r w' => Return ([], Some ("panic: " +:+ r)) w'
  end.

Definition setDashboardTemp (a : Agent) (t : float) : Agent :=
  {| sensorConfig := sensorConfig a;
     systemInfo := {| system.DashboardTemp := t |} |}.

Definition setTemperatures (systemStats : system.Stats)
    (m : option (gmap string float)) : system.Stats :=
  {| system.Temperatures := m;
     system.GenericSensors := system.GenericSensors systemStats |}.

Definition setGenericSensors (systemStats : system.Stats)
    (m : option (gmap string system.SensorData)) : system.Stats :=
  {| system.Temperatures := system.Temperatures systemStats;
     system.GenericSensors := m |}.

(** [len(m)] of a map that may be nil. *)
Definition mapLen {V} (m : option (gmap string V)) : nat :=
  match m with
  | Some m => size m
  | None => 0%nat
  end.

Section Temperatures.
Context `{GoEnv}.

(** The key a reading is stored under: if the key already exists in the
    map, the index of the reading is appended. *)
Definition outputKey (temperatures : gmap string float)
    (sensorKey : string) (i : nat) : string :=
  if bool_decide (is_Some (temperatures !! sensorKey))
  then sensorKey +:+ "_" +:+ Strconv.Itoa (Z.of_nat i)
  else sensorKey.

(** The scaling step of the loop. *)
Definition scaled (temperature : float) : float :=
  if F64.ne temperature 0 && F64.lt temperature 1
  then scaleTemperature temperature
  else temperature.

(** The body of the loop over the readings, on the dashboard temperature
    and the temperature map. *)
Definition tempStep (config : SensorConfig) (i : nat)
    (sensor : TemperatureStat) (st : float * gmap string float)
    : float * gmap string float :=
  let '(dashboardTemp, temperatures) := st in
  if bool_decide (GOOS = "darwin") && negb (ValidString (SensorKey sensor))
  then st
  else
    let temperature := scaled (Temperature sensor) in
    if F64.le temperature 0 || F64.ge temperature 200 then st
    else
      let sensorName := outputKey temperatures (SensorKey sensor) i in
      if negb (isValidSensor sensorName config) then st
      else
        let dashboardTemp :=
          if bool_decide (primarySensor config = "")
          then F64.max dashboardTemp temperature
          else if bool_decide (primarySensor config = sensorName)
          then temperature
          else dashboardTemp in
        (dashboardTemp, <[sensorName := twoDecimals temperature]> temperatures).

Fixpoint tempLoop (config : SensorConfig) (i : nat)
    (temps : list TemperatureStat) (st : float * gmap string float)
    : float * gmap string float :=
  match temps with
  | [] => st
  | sensor :: rest => tempLoop config (S i) rest (tempStep config i sensor st)
  end.

(** [updateTemperatures] from the readings on: the part after the source
    has answered. *)
Definition storeTemperatures (a : Agent) (systemStats : system.Stats)
    (temps : list TemperatureStat) : Go (Agent * system.Stats) :=
  _ ← slog Debug "Temperature" "";
  if bool_decide (length temps = 0%nat) then mret (a, systemStats)
  else
    let '(dashboardTemp, temperatures) :=
      tempLoop (sensorConfig a) 0 temps
        (system.DashboardTemp (systemInfo a), ∅) in
    mret (setDashboardTemp a dashboardTemp,
          setTemperatures systemStats (Some temperatures)).

(** [updateTemperatures] updates the agent with the latest sensor
    temperatures. *)
Definition updateTemperatures (source : option string → nat → SourceBehaviour)
    (a : Agent) (systemStats : system.Stats) : Go (Agent * system.Stats) :=
  if skipCollection (sensorConfig a) then
    _ ← slog Debug "Skipping temperature collection" "";
    mret (a, systemStats)
  else
    let a := setDashboardTemp a 0 in
    '(temps, err) ← getTempsWithPanicRecovery a (getSensorTemps source);
    match err with
    | Some _ =>
        '(temps, err) ← getTempsWithPanicRecovery a (getSensorTemps source);
        match err with
        | Some e =>
            _ ← slog Warn "Error updating temperatures" e;
            if bool_decide (0 < mapLen (system.Temperatures systemStats))%nat
            then mret (a, setTemperatures systemStats (Some ∅))
            else mret (a, systemStats)
        | None => storeTemperatures a systemStats temps
        end
    | None => storeTemperatures a systemStats temps
    end.

End Temperatures.

(** ** Generic sensor collector *)

Module Filepath.

Definition cleanStep (stack : list string) (elem : string) : list string :=
  if bool_decide (elem = "" ∨ elem = ".") then stack
  else if bool_decide (elem = "..") then removelast stack
  else stack ++ [elem].

(** [filepath.Join(dir, name)] for a rooted [dir] on a system whose
    separator is the slash: the elements are joined and the path is
    cleaned (empty and [.] elements dropped, [..] removing the element
    before it, or nothing at the root). *)
Definition Join (dir name : string) : string :=
  "/" +:+ String.concat "/"
            (fold_left cleanStep (Strings.Split (dir +:+ "/" +:+ name) "/") []).

End Filepath.

Inductive ReadError :=
  | ErrReadFile (filePath : string)
  | ErrParseValue (valueStr filePath : string).

Inductive CollectError :=
  | ErrNotFound (sensorPath : string)
  | ErrReadSensor (sensorName sensorPath : string) (cause : ReadError).

(** [os.Stat]: [None] is the error for which [os.IsNotExist] holds. *)
Definition osStat (name : string) : Go (option DirEntry) := λ w,
  Return (fs w !! name) w.

(** [os.ReadFile]: [None] is its error. *)
Definition osReadFile (name : string) : Go (option string) := λ w,
  Return (match fs w !! name with Some e => contents e | None => None end) w.

Section GenericSensors.
Context `{GoEnv}.

(** [ReadSensorFromFile] reads a numeric value from a file path. *)
Definition ReadSensorFromFile (filePath : string)
    : Go (float * option ReadError) :=
  data ← osReadFile filePath;
  match data with
  | None => mret (0%float, Some (ErrReadFile filePath))
  | Some data =>
      let valueStr := Strings.TrimSpace data in
      match ParseFloat valueStr with
      | None => mret (0%float, Some (ErrParseValue valueStr filePath))
      | Some value => mret (value, None)
      end
  end.

(** [collectGenericSensorValue] collects the current value for a generic
    sensor from the corresponding file in /generic-sensors/. *)
Definition collectGenericSensorValue (sensorName : string)
    (config : GenericSensorConfig) : Go (float * option CollectError) :=
  let sensorPath := Filepath.Join "/generic-sensors" sensorName in
  info ← osStat sensorPath;
  match info with
  | None => mret (0%float, Some (ErrNotFound sensorPath))
  | Some _ =>
      '(value, err) ← ReadSensorFromFile sensorPath;
      match err with
      | Some e => mret (0%float, Some (ErrReadSensor sensorName sensorPath e))
      | None => mret (value, None)
      end
  end.

(** The body of the loop over the configured generic sensors. *)
Definition genericStep (name : string) (config : GenericSensorConfig)
    (stored : gmap string system.SensorData)
    : Go (gmap string system.SensorData) :=
  '(value, err) ← collectGenericSensorValue name config;
  match err with
  | Some _ =>
      _ ← slog Warn "Failed to collect generic sensor data" name;
      mret stored
  | None =>
      if F64.lt value (Minimum config) || F64.gt value (Maximum config) then
        _ ← slog Warn "Generic sensor value out of range" name;
        mret stored
      else
        mret (<[name := {| system.Value := twoDecimals value;
                           system.Unit := Unit config;
                           system.Min := Minimum config;
                           system.Max := Maximum config |}]> stored)
  end.

Fixpoint genericLoop (defs : list (string * GenericSensorConfig))
    (stored : gmap string system.SensorData)
    : Go (gmap string system.SensorData) :=
  match defs with
  | [] => mret stored
  | (name, config) :: rest =>
      stored ← genericStep name config stored;
      genericLoop rest stored
  end.

(** [updateGenericSensors] updates the agent with the latest generic
    sensor data.  The configured sensors are visited in the order of
    [map_to_list]; each one writes its own key only. *)
Definition updateGenericSensors (a : Agent) (systemStats : system.Stats)
    : Go system.Stats :=
  if bool_decide (size (genericSensors (sensorConfig a)) = 0%nat)
  then mret systemStats
  else
    let stored :=
      match system.GenericSensors systemStats with
      | None => ∅
      | Some m => m
      end in
    stored ← genericLoop (map_to_list (genericSensors (sensorConfig a))) stored;
    mret (setGenericSensors systemStats (Some stored)).


(** The first line of a text. *)
Fixpoint firstLine (s : string) : string :=
  match s with
  | EmptyString => EmptyString
  | String c s' =>
      if bool_decide (c = "010"%char) then EmptyString
      else String c (firstLine s')
  end.

(** The value read for a sensor in the words of the specification: the
    first trimmed line of a plain or symbolically linked entry, the
    trimmed standard output of an entry with execute permission. *)
Definition valueTextOfSpec (e : DirEntry) : option string :=
  if executable e then Some (Strings.TrimSpace (stdout e))
  else data ← contents e; Some (Strings.TrimSpace (firstLine data)).

End GenericSensors.

(** ** A sample platform

    The statements below hold for every [GoEnv].  To run the program on
    concrete inputs one platform is fixed here: a Linux host, whose
    [ParseFloat] reads ["NaN"] and the plain decimal numerals that
    [strconv] converts exactly (up to fifteen digits, read as an integer
    and divided by a power of ten), and whose [pathMatch] covers the
    patterns made of literal bytes and stars. *)

Module Sample.

Definition digit (c : ascii) : option Z :=
  let n := Z.of_nat (nat_of_ascii c) in
  if (48 <=? n) && (n <=? 57) then Some (n - 48) else None.

(** The digits of [s] as a number, with how many there are. *)
Fixpoint digits (s : string) (acc : Z) (count : nat) : option (Z * nat) :=
  match s with
  | EmptyString => Some (acc, count)
  | String c s' =>
      match digit c with
      | Some d => digits s' (10 * acc + d) (S count)
      | None => None
      end
  end.

Definition ofZ (n : Z) : float := PrimFloat.of_uint63 (Uint63.of_Z n).

Definition unsignedDecimal (s : string) : option float :=
  match Strings.Split s "." with
  | [int] =>
      match digits int 0 0 with
      | Some (m, S n) => if (n <? 15)%nat then Some (ofZ m) else None
      | _ => None
      end
  | [int; frac] =>
      match digits (int +:+ frac) 0 0 with
      | Some (m, S n) =>
          if (n <? 15)%nat
          then Some (ofZ m / ofZ (10 ^ Z.of_nat (String.length frac)))%float
          else None
      | _ => None
      end
  | _ => None
  end.

Definition parseFloat (s : string) : option float :=
  if bool_decide (s = "NaN") then Some PrimFloat.nan
  else
    match s with
    | String "-" s' => (λ x, (- x)%float) <$> unsignedDecimal s'
    | String "+" s' => unsignedDecimal s'
    | _ => unsignedDecimal s
    end.

(** A star matches any run of bytes other than the slash. *)
Fixpoint glob (pattern : string) : string → bool :=
  match pattern with
  | EmptyString => λ name, bool_decide (name = "")
  | String "*" pattern' =>
      fix star (name : string) : bool :=
        glob pattern' name ||
        match name with
        | EmptyString => false
        | String c name' =>
            if bool_decide (c = "/"%char) then false else star name'
        end
  | String c pattern' => λ name,
      match name with
      | EmptyString => false
      | String d name' => bool_decide (c = d) && glob pattern' name'
      end
  end.

Definition match_ (pattern name : string) : bool * option string :=
  if Strings.Contains pattern "?" || Strings.Contains pattern "["
     || Strings.Contains pattern "\"
  then (false, Some "pattern syntax outside the sample")
  else (glob pattern name, None).

#[export] Instance env : GoEnv := {|
  GOOS := "linux";
  ParseFloat := parseFloat;
  pathMatch := match_;
  ValidString := λ _, true;
|}.

Definition world (files : gmap string DirEntry) : World :=
  {| logs := []; sourceCalls := 0; fs := files |}.

Definition plainFile (data : string) : DirEntry :=
  {| contents := Some data; executable := false; stdout := "" |}.

(** An empty configuration: nothing is filtered, nothing is configured. *)
Definition noConfig : SensorConfig :=
  {| context := None; sensors := ∅; genericSensors := ∅;
     primarySensor := ""; isBlacklist := false; hasWildcards := false;
     skipCollection := false |}.

Definition agent (config : SensorConfig) : Agent :=
  {| sensorConfig := config;
     systemInfo := {| system.DashboardTemp := 0 |} |}.

Definition noStats : system.Stats :=
  {| system.Temperatures := None; system.GenericSensors := None |}.

Definition reading (key : string) (t : float) : TemperatureStat :=
  {| SensorKey := key; Temperature := t |}.

(** The definition the token [(voltage,V,12.5,0.5)] stands for. *)
Definition voltage : GenericSensorConfig :=
  {| Name := "voltage"; Unit := "V"; Maximum := 12.5; Minimum := 0.5 |}.

Definition voltageConfig : SensorConfig :=
  setGenericSensor noConfig "voltage" voltage.

End Sample.

(** ** Worlds and snapshots the statements speak of *)

(** The world with more records in its log. *)
Definition addLogs (w : World) (l : list LogEntry) : World :=
  {| logs := logs w ++ l; sourceCalls := sourceCalls w; fs := fs w |}.

(** The world after the sensor source was invoked [n] more times. *)
Definition addCalls (w : World) (n : nat) : World :=
  {| logs := logs w; sourceCalls := (n + sourceCalls w)%nat; fs := fs w |}.

(** The snapshot after a cycle whose temperature source failed twice: the
    temperature map is replaced by an empty one if it had entries. *)
Definition clearedTemperatures (systemStats : system.Stats) : system.Stats :=
  if bool_decide (0 < mapLen (system.Temperatures systemStats))%nat
  then setTemperatures systemStats (Some ∅)
  else systemStats.

Definition temperatureWarning (e : string) : LogEntry :=
  {| lvl := Warn; msg := "Error updating temperatures"; about := e |}.

Definition temperatureDebug : LogEntry :=
  {| lvl := Debug; msg := "Temperature"; about := "" |}.

(** What a run returns, if it returns. *)
Definition returned {A} (o : outcome A) : option A :=
  match o with
  | Return x _ => Some x
  | Panicked _ _ => None
  end.

(** The line feed. *)
Definition nl : string := String "010"%char EmptyString.

(** The byte [c] does not occur in [s]. *)
Definition free (c : ascii) (s : string) : Prop :=
  Strings.Contains s (String c EmptyString) = false.

(** ** The other functions of the file *)

(** [GetGenericSensorNames] returns the names of all configured generic
    sensors, in the order in which [range] visits the map. *)
Definition GetGenericSensorNames (a : Agent) : list string :=
  (map_to_list (genericSensors (sensorConfig a))).*1.

(** [GetTemperatureSensors] returns the configured temperature sensors. *)
Definition GetTemperatureSensors (config : SensorConfig) : gset string :=
  sensors config.

(** [GetGenericSensors] returns the configured generic sensors. *)
Definition GetGenericSensors (config : SensorConfig)
    : gmap string GenericSensorConfig :=
  genericSensors config.

(** [NewSensorConfigWithEnv], the exported name of the parser. *)
Definition NewSensorConfigWithEnv `{GoEnv}
    (primarySensor sysSensors sensorsEnvVal : string) (skipCollection : bool)
    : Go SensorConfig :=
  newSensorConfigWithEnv primarySensor sysSensors sensorsEnvVal skipCollection.

(** [newSensorConfig] reads the three variables of the environment.
    [GetEnv], a helper of the agent package defined in another file, is
    taken as it is called: it returns the value of a variable and whether
    the variable is set. *)
Definition newSensorConfig `{GoEnv} (GetEnv : string → string * bool)
    : Go SensorConfig :=
  let '(primarySensor, _) := GetEnv "PRIMARY_SENSOR" in
  let '(sysSensors, _) := GetEnv "SYS_SENSORS" in
  let '(sensorsEnvVal, sensorsSet) := GetEnv "SENSORS" in
  let skipCollection := sensorsSet && bool_decide (sensorsEnvVal = "") in
  newSensorConfigWithEnv primarySensor sysSensors sensorsEnvVal skipCollection.

(** ** Notions the further statements speak of *)

(** A token wrapped in parentheses, as the loop of the parser tests it. *)
Definition parenthesised (token : string) : bool :=
  Strings.HasPrefix token "(" && Strings.HasSuffix token ")".

(** The tokens of a configuration text that the parser takes as
    temperature patterns: trimmed, not empty, not in parentheses. *)
Definition patternTokens (tokens : list string) : list string :=
  filter (λ token, token ≠ "" ∧ parenthesised token = false)
    (Strings.TrimSpace <$> tokens).

(** The configuration text without its leading dash. *)
Definition withoutDash (sensorsEnvVal : string) : string :=
  match sensorsEnvVal with
  | String "-" rest => rest
  | _ => sensorsEnvVal
  end.

(** The configuration with the given polarity. *)
Definition setPolarity (config : SensorConfig) (blacklist : bool) : SensorConfig :=
  {| context := context config;
     sensors := sensors config;
     genericSensors := genericSensors config;
     primarySensor := primarySensor config;
     isBlacklist := blacklist;
     hasWildcards := hasWildcards config;
     skipCollection := skipCollection config |}.

(** The invariant the parser keeps between the patterns and the flag. *)
Definition wildcardsFlagged (config : SensorConfig) : Prop :=
  hasWildcards config = true ↔
  ∃ pattern, pattern ∈ sensors config ∧ Strings.Contains pattern "*" = true.

(** What is under a sensor's name in the generic sensor map after the
    sensor was collected with the result [r], given what was there before. *)
Definition storedAfter (config : GenericSensorConfig)
    (r : float * option CollectError) (before : option system.SensorData)
    : option system.SensorData :=
  match r with
  | (value, None) =>
      if F64.lt value (Minimum config) || F64.gt value (Maximum config)
      then before
      else Some {| system.Value := twoDecimals value;
                   system.Unit := Unit config;
                   system.Min := Minimum config;
                   system.Max := Maximum config |}
  | (_, Some _) => before
  end.

(** A generic sensor map that may be nil, read as a map. *)
Definition genericMap (systemStats : system.Stats)
    : gmap string system.SensorData :=
  match system.GenericSensors systemStats with
  | Some m => m
  | None => ∅
  end.

(** The text of four fields in parentheses. *)
Definition fourFields (f1 f2 f3 f4 : string) : string :=
  "(" +:+ f1 +:+ "," +:+ f2 +:+ "," +:+ f3 +:+ "," +:+ f4 +:+ ")".

(** A text of ASCII white space only. *)
Definition asciiBlank (s : string) : Prop :=
  Forall (λ c, Strings.asciiSpace c = true) (list_ascii_of_string s).

(** A byte below 128. *)
Definition isAscii (c : ascii) : bool :=
  match c with
  | Ascii _ _ _ _ _ _ _ high => negb high
  end.

(** An ASCII byte that is no white space. *)
Definition solid (c : ascii) : Prop :=
  Strings.asciiSpace c = false ∧ isAscii c = true.

(** Encodings that all start with a byte of 128 or more. *)
Definition startHigh (encs : list string) : bool :=
  forallb (λ e, match e with
                | String d _ => negb (isAscii d)
                | EmptyString => false
                end) encs.

(** A configured generic sensor fails in a world: it cannot be read (no
    entry, an entry that cannot be read, contents that are no number), or
    the collector's range check finds its value below the minimum or above
    the maximum of its definition. *)
Definition sensorFails `{GoEnv} (name : string) (config : GenericSensorConfig)
    (w : World) : Prop :=
  ∃ value err,
    collectGenericSensorValue name config w = Return (value, err) w ∧
    (is_Some err ∨
     F64.lt value (Minimum config) || F64.gt value (Maximum config) = true).

(** The world a call leaves, whether it returned or panicked. *)
Definition worldAfter {A} (o : outcome A) : World :=
  match o with
  | Return _ w => w
  | Panicked _ w => w
  end.

(** * Properties *)

(** ** Comparisons of binary64 values *)

Lemma compare_cont_swap (m1 m2 : positive) :
  PosDef.Pos.compare_cont Eq m2 m1 = CompOpp (PosDef.Pos.compare_cont Eq m1 m2).
Proof. exact (Pos.compare_antisym m1 m2). Qed.

Lemma SFcompare_swap (x y : spec_float) :
  SFcompare y x = CompOpp <$> SFcompare x y.
Proof.
  destruct x as [sx|sx| |sx mx ex], y as [sy|sy| |sy my ey]; simpl;
    try reflexivity;
    repeat match goal with s : bool |- _ => destruct s end;
    try reflexivity;
    rewrite (Z.compare_antisym ex ey), (compare_cont_swap mx my);
    destruct (ex ?= ey); simpl; try reflexivity;
    destruct (PosDef.Pos.compare_cont Eq mx my); reflexivity.
Qed.

Lemma ltb_asym (x y : float) :
  PrimFloat.ltb x y = true → PrimFloat.ltb y x = false.
Proof.
  rewrite !FloatAxioms.ltb_spec. unfold SFltb. rewrite (SFcompare_swap (Prim2SF x) (Prim2SF y)).
  destruct (SFcompare (Prim2SF x) (Prim2SF y)) as [[]|]; simpl; congruence.
Qed.

Lemma ltb_neqb (x y : float) :
  PrimFloat.ltb x y = true → PrimFloat.eqb y x = false.
Proof.
  rewrite FloatAxioms.ltb_spec, FloatAxioms.eqb_spec. unfold SFltb, SFeqb.
  rewrite (SFcompare_swap (Prim2SF x) (Prim2SF y)).
  destruct (SFcompare (Prim2SF x) (Prim2SF y)) as [[]|]; simpl; congruence.
Qed.

(** ** Scale heuristic *)

Lemma scaleTemperature_below_one (raw : float) :
  F64.lt raw 1 = true →
  scaleTemperature raw =
    if inBand (raw * 100) then (raw * 100)%float
    else if inBand (raw * 1000) then (raw * 1000)%float
    else (raw * 100)%float.
Proof.
  intros Hlt. unfold scaleTemperature, F64.gt.
  rewrite (ltb_asym _ _ Hlt). reflexivity.
Qed.

(** C7: for every raw value with [0 < raw < 1] the loop applies the
    heuristic, which returns [raw*100] if that lies in [[15,95]], otherwise
    [raw*1000] if that lies in [[15,95]], otherwise [raw*100] all the same;
    and a value that is zero or not below one is left as it is. *)
Theorem scale_heuristic (raw : float) :
  F64.lt 0 raw = true →
  F64.lt raw 1 = true →
  scaled raw = scaleTemperature raw ∧
  scaleTemperature raw =
    (if inBand (raw * 100) then (raw * 100)%float
     else if inBand (raw * 1000) then (raw * 1000)%float
     else (raw * 100)%float) ∧
  (∀ t, F64.ne t 0 && F64.lt t 1 = false → scaled t = t).
Proof.
  intros Hpos Hlt. split; [|split].
  - unfold scaled, F64.ne. rewrite (ltb_neqb _ _ Hpos), Hlt. reflexivity.
  - apply scaleTemperature_below_one, Hlt.
  - intros t Ht. unfold scaled. rewrite Ht. reflexivity.
Qed.

Lemma scale_heuristic_witness :
  F64.lt 0 0.45 = true ∧ F64.lt 0.45 1 = true ∧
  scaled 0.45 = scaleTemperature 0.45 ∧
  scaleTemperature 0.45 =
    (if inBand (0.45 * 100) then (0.45 * 100)%float
     else if inBand (0.45 * 1000) then (0.45 * 1000)%float
     else (0.45 * 100)%float) ∧
  (∀ t, F64.ne t 0 && F64.lt t 1 = false → scaled t = t).
Proof.
  split; [reflexivity|]. split; [reflexivity|].
  apply (scale_heuristic 0.45); reflexivity.
Defined.

(** C3, as the heuristic has it: a raw reading of 0.45 scales to 45 and
    passes the plausibility check; the raw reading that scales to 45 by the
    factor 1000 is 0.045, whose hundredfold 4.5 is below the band; a raw
    reading of 0.0045 is brought into the band by neither factor and is
    scaled by 100, to 0.45 within rounding, which is still plausible. *)
Theorem scale_examples :
  scaled 0.45 = 45%float ∧ plausible 45 = true ∧
  (0.045 * 100 = 4.5)%float ∧ inBand 4.5 = false ∧
  scaled 0.045 = (0.045 * 1000)%float ∧ (0.045 * 1000 = 45)%float ∧
  scaled 0.0045 = (0.0045 * 100)%float ∧
  twoDecimals (scaled 0.0045) = 0.45%float ∧
  plausible (scaled 0.0045) = true.
Proof. repeat split; vm_compute; reflexivity. Qed.

(** C3 as stated fails: times 1000 a raw reading of 0.0045 is 4.5, outside
    the band, so the heuristic does not return 45 for it. *)
Lemma scale_0_0045_not_45 :
  (0.0045 * 1000 = 4.5)%float ∧ inBand (0.0045 * 1000) = false ∧
  scaleTemperature 0.0045 = (0.0045 * 100)%float ∧
  PrimFloat.eqb (scaleTemperature 0.0045) 45 = false ∧
  F64.lt (scaleTemperature 0.0045) 1 = true.
Proof. repeat split; vm_compute; reflexivity. Qed.

(** ** Filter evaluator *)

Section FilterProperties.
Context `{GoEnv}.

Lemma scanWildcards_hit (order : list string) name config pattern :
  pattern ∈ order → hits name pattern →
  scanWildcards order name config = Some (negb (isBlacklist config)).
Proof.
  intros Hin [Hstar Hmatch].
  induction order as [|p rest IH]; [by apply elem_of_nil in Hin|].
  simpl. apply elem_of_cons in Hin as [->|Hin].
  - by rewrite Hstar, Hmatch.
  - destruct (Strings.Contains p "*"); simpl; [|by apply IH].
    destruct (pathMatch p name).1; [done|by apply IH].
Qed.

Lemma scanWildcards_miss (order : list string) name config :
  (∀ pattern, pattern ∈ order → ¬ hits name pattern) →
  scanWildcards order name config = None.
Proof.
  induction order as [|p rest IH]; intros Hno; [done|].
  simpl.
  assert (Hrest : scanWildcards rest name config = None).
  { apply IH. intros q Hq. apply Hno. by apply elem_of_cons; right. }
  destruct (Strings.Contains p "*") eqn:Hstar; simpl; [|done].
  destruct (pathMatch p name).1 eqn:Hmatch; [|done].
  exfalso. apply (Hno p); [by apply elem_of_cons; left|done].
Qed.

Lemma hits_dec (name : string) (order : list string) :
  (∃ pattern, pattern ∈ order ∧ hits name pattern) ∨
  (∀ pattern, pattern ∈ order → ¬ hits name pattern).
Proof.
  induction order as [|p rest [[q [Hq Hh]]|IH]].
  - right. intros q Hq. by apply elem_of_nil in Hq.
  - left. exists q. split; [by apply elem_of_cons; right|done].
  - destruct (Strings.Contains p "*") eqn:Hstar;
      [destruct (pathMatch p name).1 eqn:Hmatch|].
    + left. exists p. split; [by apply elem_of_cons; left|done].
    + right. intros q [->|Hq]%elem_of_cons; [|by apply IH].
      intros [_ Hm]. congruence.
    + right. intros q [->|Hq]%elem_of_cons; [|by apply IH].
      intros [Hs _]. congruence.
Qed.

(** The scan depends on the patterns visited, not on their order. *)
Lemma scanWildcards_perm (order1 order2 : list string) name config :
  order1 ≡ₚ order2 →
  scanWildcards order1 name config = scanWildcards order2 name config.
Proof.
  intros Hperm.
  destruct (hits_dec name order1) as [[p [Hp Hh]]|Hno].
  - rewrite (scanWildcards_hit order1 name config p Hp Hh).
    symmetry. apply (scanWildcards_hit order2 name config p); [|done].
    by rewrite <- Hperm.
  - rewrite (scanWildcards_miss order1 name config Hno).
    symmetry. apply scanWildcards_miss.
    intros q Hq. apply Hno. by rewrite Hperm.
Qed.

Lemma isValidSensorIn_accept (order : list string) name config :
  order ≡ₚ elements (sensors config) →
  isValidSensorIn order name config = accept name config.
Proof.
  intros Hperm. unfold isValidSensorIn, accept.
  rewrite (bool_decide_ext _ (name ∈ dom (genericSensors config)))
    by (symmetry; apply elem_of_dom).
  destruct (bool_decide (name ∈ dom (genericSensors config))); [done|].
  rewrite (bool_decide_ext _ (sensors config = ∅))
    by (rewrite size_empty_iff; apply (leibniz_equiv_iff (sensors config) ∅)).
  destruct (bool_decide (sensors config = ∅)); [done|].
  destruct (bool_decide (name ∈ sensors config)); [done|].
  destruct (hasWildcards config); simpl; [|done].
  case_bool_decide as Hex.
  - destruct Hex as (p & Hp & Hh).
    rewrite (scanWildcards_hit order name config p); [done| |done].
    rewrite Hperm. by apply elem_of_elements.
  - rewrite scanWildcards_miss; [done|].
    intros p Hp Hh. apply Hex. exists p. split; [|done].
    apply elem_of_elements. by rewrite <- Hperm.
Qed.

End FilterProperties.

(** C2: for every sensor name and every configuration, whichever order the
    patterns are visited in, [isValidSensor] returns what the decision
    procedure [accept] of the specification returns; and the configuration
    [-cpu_temp,gpu_temp] parses to a blacklist of the patterns [cpu_temp]
    and [gpu_temp], which rejects [gpu_temp] and accepts [fan1]. *)
Theorem isValidSensor_decision `{GoEnv} (order : list string) (name : string)
    (config : SensorConfig) :
  order ≡ₚ elements (sensors config) →
  isValidSensorIn order name config = accept name config ∧
  isValidSensor name config = accept name config ∧
  (∀ primarySensor skip w, ∃ parsed,
     newSensorConfigWithEnv primarySensor "" "-cpu_temp,gpu_temp" skip w
       = Return parsed w ∧
     isBlacklist parsed = true ∧
     sensors parsed = {[ "cpu_temp"; "gpu_temp" ]} ∧
     genericSensors parsed = ∅ ∧
     isValidSensor "gpu_temp" parsed = false ∧
     isValidSensor "fan1" parsed = true).
Proof.
  intros Hperm. split; [by apply isValidSensorIn_accept|].
  split; [by apply isValidSensorIn_accept|].
  intros primarySensor skip w. eexists. split; [reflexivity|].
  repeat split; vm_compute; reflexivity.
Qed.

(** C10: the verdict of [isValidSensor] does not depend on the order in
    which the wildcard scan visits the patterns.  Every wildcard pattern
    that matches the name makes the scan return the negation of
    [isBlacklist], in whichever order; so two runs over two enumerations of
    the pattern set return the same verdict, which is the one of the run in
    the order of [elements]. *)
Theorem isValidSensor_order_independent `{GoEnv} (order1 order2 : list string)
    (name : string) (config : SensorConfig) :
  order1 ≡ₚ elements (sensors config) →
  order2 ≡ₚ elements (sensors config) →
  (∀ pattern, pattern ∈ sensors config → hits name pattern →
     scanWildcards order1 name config = Some (negb (isBlacklist config)) ∧
     scanWildcards order2 name config = Some (negb (isBlacklist config))) ∧
  isValidSensorIn order1 name config = isValidSensorIn order2 name config ∧
  isValidSensorIn order1 name config = isValidSensor name config.
Proof.
  intros Hperm1 Hperm2. split; [|split].
  - intros pattern Hin Hhit. apply elem_of_elements in Hin.
    split; apply (scanWildcards_hit _ name config pattern); try done.
    + by rewrite Hperm1.
    + by rewrite Hperm2.
  - unfold isValidSensorIn.
    by rewrite (scanWildcards_perm order1 order2 name config)
      by (by rewrite Hperm1, Hperm2).
  - unfold isValidSensor, isValidSensorIn.
    by rewrite (scanWildcards_perm order1 _ name config Hperm1).
Qed.

(** ** Config parser *)

Lemma slice_parentheses (sensor : string) :
  Strings.HasPrefix sensor "(" = true →
  Strings.HasSuffix sensor ")" = true →
  ∃ content, Strings.slice sensor 1 (Strings.len sensor - 1) = Ok content.
Proof.
  intros Hpre Hsuf. unfold Strings.slice.
  destruct sensor as [|c [|d rest]].
  - cbv in Hpre. discriminate Hpre.
  - unfold Strings.HasPrefix in Hpre. cbn [String.prefix] in Hpre.
    destruct (Ascii.ascii_dec "(" c) as [<-|]; [|discriminate Hpre].
    vm_compute in Hsuf. discriminate Hsuf.
  - rewrite bool_decide_eq_true_2; [by eexists|].
    unfold Strings.len. simpl String.length. lia.
Qed.

Lemma sliceFrom_dash (sensorsEnvVal : string) :
  Strings.HasPrefix sensorsEnvVal "-" = true →
  ∃ rest, Strings.sliceFrom sensorsEnvVal 1 = Ok rest.
Proof.
  intros Hpre. unfold Strings.sliceFrom, Strings.slice.
  destruct sensorsEnvVal as [|c rest]; [cbv in Hpre; discriminate Hpre|].
  rewrite bool_decide_eq_true_2; [by eexists|].
  unfold Strings.len. simpl String.length. lia.
Qed.

Section ParserProperties.
Context `{GoEnv}.

(** A token in parentheses is parsed without a panic; when it is
    rejected the configuration and the world are as they were. *)
Lemma parseGenericSensor_returns sensor config w :
  Strings.HasPrefix sensor "(" = true →
  Strings.HasSuffix sensor ")" = true →
  ∃ err config' w',
    parseGenericSensor sensor config w = Return (err, config') w' ∧
    (is_Some err → config' = config ∧ w' = w).
Proof.
  intros Hpre Hsuf.
  destruct (slice_parentheses sensor Hpre Hsuf) as [content Hcontent].
  unfold parseGenericSensor, mbind, Go_bind, lift. rewrite Hcontent.
  destruct (Strings.Split content ",") as [|p0 [|p1 [|p2 [|p3 [|p4 ps]]]]];
    try (by eexists _, _, _; split; [reflexivity|]).
  repeat case_bool_decide;
    try (by eexists _, _, _; split; [reflexivity|]).
  destruct (ParseFloat _) as [maximum|];
    [|by eexists _, _, _; split; [reflexivity|]].
  destruct (ParseFloat _) as [minimum|];
    [|by eexists _, _, _; split; [reflexivity|]].
  destruct (F64.ge minimum maximum);
    [by eexists _, _, _; split; [reflexivity|]|].
  eexists _, _, _. split; [reflexivity|].
  intros [e He]. discriminate He.
Qed.

Lemma parseToken_returns sensor config w :
  ∃ config' w',
    parseToken sensor config w = Return config' w' ∧
    (rejected sensor config w → config' = config ∧ w' = warned sensor w).
Proof.
  unfold parseToken, rejected.
  set (token := Strings.TrimSpace sensor).
  case_bool_decide as Hne.
  2:{ eexists _, _. split; [reflexivity|]. by intros [? _]. }
  destruct (Strings.HasPrefix token "(") eqn:Hpre; simpl.
  2:{ destruct (Strings.Contains token "*");
        (eexists _, _; split; [reflexivity|]); by intros (_ & ? & _). }
  destruct (Strings.HasSuffix token ")") eqn:Hsuf; simpl.
  2:{ destruct (Strings.Contains token "*");
        (eexists _, _; split; [reflexivity|]); by intros (_ & _ & ? & _). }
  destruct (parseGenericSensor_returns token config w Hpre Hsuf)
    as (err & config' & w' & Hparse & Herr).
  unfold mbind, Go_bind at 1. rewrite Hparse.
  destruct err as [e|].
  - destruct Herr as [-> ->]; [done|].
    eexists _, _. split; [reflexivity|]. done.
  - eexists _, _. split; [reflexivity|].
    intros (_ & _ & _ & e & c & w'' & Hrej). congruence.
Qed.

Lemma parseTokens_returns tokens config w :
  ∃ config' w', parseTokens tokens config w = Return config' w'.
Proof.
  revert config w. induction tokens as [|sensor rest IH]; intros config w.
  - by eexists _, _.
  - destruct (parseToken_returns sensor config w) as (c & w' & Htoken & _).
    simpl. unfold mbind, Go_bind at 1. rewrite Htoken. apply IH.
Qed.

Lemma newSensorConfigWithEnv_returns primarySensor sysSensors sensorsEnvVal
    skip w :
  ∃ config w',
    newSensorConfigWithEnv primarySensor sysSensors sensorsEnvVal skip w
      = Return config w'.
Proof.
  unfold newSensorConfigWithEnv.
  case_bool_decide; unfold mbind, Go_bind, mret, Go_ret, slog;
    (destruct (Strings.HasPrefix sensorsEnvVal "-") eqn:Hdash;
     [destruct (sliceFrom_dash sensorsEnvVal Hdash) as [rest ->]|]);
    simpl; apply parseTokens_returns.
Qed.

End ParserProperties.

(** Parsing is total: for every configuration string, whatever the other
    arguments and the world, parsing returns a configuration and does not
    panic.  Each comma-separated piece is parsed on its own and cannot end
    the parsing: the pieces after it are parsed from the configuration it
    leaves, and a piece in parentheses that is rejected leaves the
    configuration as it was, with one more warning in the log. *)
Theorem newSensorConfigWithEnv_total `{GoEnv}
    (primarySensor sysSensors sensorsEnvVal : string) (skip : bool) (w : World) :
  (∃ config w',
     newSensorConfigWithEnv primarySensor sysSensors sensorsEnvVal skip w
       = Return config w') ∧
  (∀ sensor rest config w0, ∃ config' w',
     parseToken sensor config w0 = Return config' w' ∧
     parseTokens (sensor :: rest) config w0 = parseTokens rest config' w' ∧
     (rejected sensor config w0 → config' = config ∧ w' = warned sensor w0)).
Proof.
  split; [apply newSensorConfigWithEnv_returns|].
  intros sensor rest config w0.
  destruct (parseToken_returns sensor config w0) as (c & w' & Htoken & Hrej).
  exists c, w'. split; [done|]. split; [|done].
  simpl. unfold mbind, Go_bind at 1. by rewrite Htoken.
Qed.

(** ** Fields of a split text *)

(** A text without the separator is one field. *)
Lemma Split_no_sep (s : string) (sep : ascii) :
  Strings.Contains s (String sep EmptyString) = false →
  Strings.Split s sep = [s].
Proof.
  induction s as [|c s IH]; [done|].
  cbn [Strings.Contains Strings.Split String.prefix].
  destruct (Ascii.ascii_dec sep c) as [->|Hne].
  - by destruct s.
  - rewrite bool_decide_eq_false_2 by congruence.
    simpl. intros Hs. by rewrite IH.
Qed.

Lemma Split_at_sep (p s : string) (sep : ascii) :
  Strings.Contains p (String sep EmptyString) = false →
  Strings.Split (p +:+ String sep s) sep = p :: Strings.Split s sep.
Proof.
  induction p as [|c p IH].
  - intros _. change ("" +:+ String sep s) with (String sep s).
    cbn [Strings.Split]. by rewrite bool_decide_eq_true_2.
  - cbn [Strings.Contains String.append Strings.Split String.prefix].
    destruct (Ascii.ascii_dec sep c) as [->|Hne].
    + by destruct p.
    + change (String c p +:+ String sep s)
        with (String c (p +:+ String sep s)).
      cbn [Strings.Split].
      rewrite bool_decide_eq_false_2 by congruence.
      simpl. intros Hp. by rewrite IH.
Qed.

(** ** The parser configures no generic sensor

    The configuration is split at every comma before a token is tested for
    parentheses, so no token that reaches [parseGenericSensor] has a comma
    in it, and every one of them has one field where four are expected. *)

Lemma free_nil c : free c "".
Proof. reflexivity. Qed.

Lemma free_cons c d s : free c (String d s) ↔ c ≠ d ∧ free c s.
Proof.
  unfold free. cbn [Strings.Contains String.prefix].
  destruct (Ascii.ascii_dec c d) as [->|Hne].
  - split; [by destruct s|]. by intros [? _].
  - simpl. split; [by intros ?|by intros [_ ?]].
Qed.

Lemma free_rev_app c s1 s2 : free c s1 → free c s2 → free c (String.rev_app s1 s2).
Proof.
  revert s2. induction s1 as [|d s1 IH]; intros s2 H1 H2; [done|].
  apply free_cons in H1 as [Hne H1]. simpl. apply IH; [done|].
  by apply free_cons.
Qed.

Lemma free_rev c s : free c s → free c (String.rev s).
Proof. intros Hs. by apply free_rev_app. Qed.

Lemma free_dropPrefix c p s s' :
  Strings.dropPrefix p s = Some s' → free c s → free c s'.
Proof.
  revert s. induction p as [|a p IH]; intros s Hdrop Hs.
  - simpl in Hdrop. by destruct s; simplify_eq.
  - destruct s as [|b s]; [done|]. simpl in Hdrop.
    case_bool_decide; [|done]. apply free_cons in Hs as [_ Hs]. by eapply IH.
Qed.

Lemma free_stripSpace c encs s s' :
  Strings.stripSpace encs s = Some s' → free c s → free c s'.
Proof.
  unfold Strings.stripSpace. destruct s as [|a s]; [done|].
  destruct (Strings.asciiSpace a).
  - intros [= <-] Hs. by apply free_cons in Hs as [_ Hs].
  - induction encs as [|e encs IH]; [done|]. cbn [Strings.firstSome].
    destruct (Strings.dropPrefix e (String a s)) as [t|] eqn:Hdrop.
    + intros [= <-] Hs. by eapply free_dropPrefix.
    + apply IH.
Qed.

Lemma free_trimFront c encs fuel s :
  free c s → free c (Strings.trimFront encs fuel s).
Proof.
  revert s. induction fuel as [|fuel IH]; intros s Hs; [done|].
  simpl. destruct (Strings.stripSpace encs s) as [s'|] eqn:Hstrip; [|done].
  apply IH. by eapply free_stripSpace.
Qed.

Lemma free_TrimSpace c s : free c s → free c (Strings.TrimSpace s).
Proof.
  intros Hs. unfold Strings.TrimSpace, Strings.TrimRightSpace, Strings.TrimLeftSpace.
  apply free_rev, free_trimFront, free_rev, free_trimFront, Hs.
Qed.

Lemma free_substring c n m s : free c s → free c (String.substring n m s).
Proof.
  revert n m. induction s as [|d s IH]; intros n m Hs.
  - by destruct n, m.
  - apply free_cons in Hs as [Hne Hs]. destruct n as [|n]; simpl.
    + destruct m as [|m]; [done|]. apply free_cons. split; [done|]. by apply IH.
    + by apply IH.
Qed.

Lemma Split_free s sep : Forall (free sep) (Strings.Split s sep).
Proof.
  induction s as [|c s IH]; simpl.
  - by constructor.
  - case_bool_decide as Hc.
    + by constructor.
    + destruct (Strings.Split s sep) as [|h t].
      * constructor; [|done]. apply free_cons. split; [congruence|done].
      * apply Forall_cons in IH as [Hh Ht]. constructor; [|done].
        apply free_cons. split; [congruence|done].
Qed.

Section NoGenericSensor.
Context `{GoEnv}.

Lemma parseGenericSensor_one_field sensor config w err config' w' :
  free "," sensor →
  parseGenericSensor sensor config w = Return (err, config') w' →
  config' = config.
Proof.
  intros Hfree. unfold parseGenericSensor, mbind, Go_bind, lift, Strings.slice.
  case_bool_decide; [|done].
  rewrite Split_no_sep by (by apply free_substring).
  by intros [= _ <- _].
Qed.

Lemma parseToken_keeps_genericSensors sensor config w config' w' :
  free "," sensor →
  parseToken sensor config w = Return config' w' →
  genericSensors config' = genericSensors config.
Proof.
  intros Hfree%free_TrimSpace. unfold parseToken.
  set (token := Strings.TrimSpace sensor) in *.
  case_bool_decide; [|by intros [= <- _]].
  destruct (Strings.HasPrefix token "(" && Strings.HasSuffix token ")").
  - unfold mbind, Go_bind.
    destruct (parseGenericSensor token config w) as [[err c] w1|] eqn:Hparse;
      [|done].
    apply parseGenericSensor_one_field in Hparse as ->; [|done].
    destruct err; unfold slog, mret, Go_ret; by intros [= <- _].
  - destruct (Strings.Contains token "*"); by intros [= <- _].
Qed.

Lemma parseTokens_keeps_genericSensors tokens config w config' w' :
  Forall (free ",") tokens →
  parseTokens tokens config w = Return config' w' →
  genericSensors config' = genericSensors config.
Proof.
  intros Hfree. revert config w.
  induction Hfree as [|sensor rest Hsensor _ IH]; intros config w.
  - by intros [= <- _].
  - simpl. unfold mbind, Go_bind at 1.
    destruct (parseToken sensor config w) as [c w1|] eqn:Htoken; [|done].
    intros Hrest. rewrite (IH _ _ Hrest).
    by eapply parseToken_keeps_genericSensors.
Qed.

(** Whatever the configuration string, the configuration parsed from it
    has no generic sensor. *)
Lemma newSensorConfigWithEnv_no_generic_sensor primarySensor sysSensors
    sensorsEnvVal skip w config w' :
  newSensorConfigWithEnv primarySensor sysSensors sensorsEnvVal skip w
    = Return config w' →
  genericSensors config = ∅.
Proof.
  unfold newSensorConfigWithEnv.
  case_bool_decide; unfold mbind, Go_bind, mret, Go_ret, slog, lift;
    (destruct (Strings.HasPrefix sensorsEnvVal "-");
     [destruct (Strings.sliceFrom sensorsEnvVal 1); [|done]|]);
    simpl; intros Hparse;
    by rewrite (parseTokens_keeps_genericSensors _ _ _ _ _ (Split_free _ _) Hparse).
Qed.

End NoGenericSensor.

(** ** Generic sensor collector: it returns, and reads the files only *)

Lemma addLogs_addLogs w l1 l2 : addLogs (addLogs w l1) l2 = addLogs w (l1 ++ l2).
Proof. unfold addLogs. simpl. by rewrite <- app_assoc. Qed.

Lemma addLogs_nil w : addLogs w [] = w.
Proof. destruct w. unfold addLogs. simpl. by rewrite app_nil_r. Qed.

Section GenericProperties.
Context `{GoEnv}.

(** Reading a sensor changes nothing, and two worlds with the same files
    give the same reading. *)
Lemma collectGenericSensorValue_reads name config w1 w2 :
  fs w1 = fs w2 →
  ∃ r, collectGenericSensorValue name config w1 = Return r w1 ∧
       collectGenericSensorValue name config w2 = Return r w2.
Proof.
  intros Hfs.
  unfold collectGenericSensorValue, ReadSensorFromFile, osStat, osReadFile,
    mbind, Go_bind, mret, Go_ret.
  cbv beta zeta. rewrite <- Hfs.
  destruct (fs w1 !! Filepath.Join "/generic-sensors" name) as [e|] eqn:Hstat;
    [|eexists; split; reflexivity].
  rewrite <- Hfs, Hstat.
  destruct (contents e) as [data|]; [|eexists; split; reflexivity].
  destruct (ParseFloat (Strings.TrimSpace data)); eexists; split; reflexivity.
Qed.




End GenericProperties.

(** ** Temperature collector: the panic boundary *)



(** ** Generic sensor collector: allocation of the map *)

Section GenericCycle.
Context `{GoEnv}.

Lemma genericStep_lookup name config stored w :
  ∃ r l,
    collectGenericSensorValue name config w = Return r w ∧
    ∃ stored',
      genericStep name config stored w = Return stored' (addLogs w l) ∧
      stored' !! name = storedAfter config r (stored !! name) ∧
      ∀ other, other ≠ name → stored' !! other = stored !! other.
Proof.
  destruct (collectGenericSensorValue_reads name config w w eq_refl)
    as ([value err] & Hread & _).
  unfold genericStep, mbind, Go_bind. rewrite Hread.
  destruct err as [e|].
  - exists (value, Some e). eexists [_]. split; [done|]. eexists.
    split; [reflexivity|]. done.
  - destruct (F64.lt value (Minimum config) || F64.gt value (Maximum config))
      eqn:Hrange.
    + exists (value, None). eexists [_]. split; [done|]. eexists.
      split; [reflexivity|]. cbn [storedAfter]. by rewrite Hrange.
    + exists (value, None), []. split; [done|]. eexists.
      rewrite addLogs_nil. split; [reflexivity|].
      cbn [storedAfter]. rewrite Hrange. split; [by rewrite lookup_insert_eq|].
      intros other Hne. by rewrite lookup_insert_ne.
Qed.

Lemma collectGenericSensorValue_addLogs name config w l r :
  collectGenericSensorValue name config w = Return r w →
  collectGenericSensorValue name config (addLogs w l) = Return r (addLogs w l).
Proof.
  intros Hread.
  destruct (collectGenericSensorValue_reads name config w (addLogs w l) eq_refl)
    as (r' & H1 & H2).
  congruence.
Qed.

Lemma genericLoop_lookup defs stored w :
  NoDup defs.*1 →
  ∃ stored' l,
    genericLoop defs stored w = Return stored' (addLogs w l) ∧
    ∀ name,
      (name ∉ defs.*1 → stored' !! name = stored !! name) ∧
      (∀ config, (name, config) ∈ defs →
         ∃ r, collectGenericSensorValue name config w = Return r w ∧
              stored' !! name = storedAfter config r (stored !! name)).
Proof.
  revert stored w. induction defs as [|[n c] rest IH]; intros stored w Hnodup.
  - exists stored, []. rewrite addLogs_nil. split; [done|].
    intros name. split; [done|]. intros config Hin. by apply elem_of_nil in Hin.
  - apply NoDup_cons in Hnodup as [Hfresh Hnodup].
    destruct (genericStep_lookup n c stored w)
      as (r & l1 & Hread & stored1 & Hstep & Hn & Hother).
    destruct (IH stored1 (addLogs w l1) Hnodup) as (stored2 & l2 & Hloop & Hrest).
    exists stored2, (l1 ++ l2). split.
    { cbn [genericLoop]. unfold mbind, Go_bind at 1. rewrite Hstep.
      by rewrite Hloop, addLogs_addLogs. }
    intros name. destruct (Hrest name) as [Hout Hin]. split.
    + intros Hnot. cbn in Hnot. apply not_elem_of_cons in Hnot as [Hne Hnot].
      rewrite (Hout Hnot). by apply Hother.
    + intros config [Heq|Hrestin]%elem_of_cons.
      * injection Heq as -> ->. exists r. split; [done|].
        by rewrite (Hout Hfresh).
      * destruct (Hin config Hrestin) as (r' & Hread' & Hlookup).
        assert (Hne : name ≠ n).
        { intros ->. apply Hfresh. apply list_elem_of_fmap.
          by exists (n, config). }
        destruct (collectGenericSensorValue_reads name config w (addLogs w l1)
                    eq_refl) as (r0 & H0 & H1).
        exists r0. split; [done|].
        rewrite Hlookup, (Hother name Hne). congruence.
Qed.

End GenericCycle.

(** C5, as the collector has it: the collector returns; with no generic
    sensor configured it leaves the snapshot and the log as they are; with
    at least one configured it leaves a generic sensor map that is
    allocated, whether or not any sensor was read with success.  So the map
    is allocated after the cycle exactly when a generic sensor is
    configured or the map was allocated before.  In a cycle in which every
    configured sensor fails (it cannot be read, its contents are no number,
    or its value is below the minimum or above the maximum), with at least
    one sensor configured, the map is allocated and holds exactly the
    entries it held before the cycle: none, if it was nil. *)
Theorem generic_map_allocation `{GoEnv} (a : Agent) (systemStats : system.Stats)
    (w : World) :
  ∃ m l,
    updateGenericSensors a systemStats w
      = Return (setGenericSensors systemStats m) (addLogs w l) ∧
    (genericSensors (sensorConfig a) = ∅ →
       m = system.GenericSensors systemStats ∧ l = []) ∧
    (genericSensors (sensorConfig a) ≠ ∅ → is_Some m) ∧
    (is_Some m ↔
       genericSensors (sensorConfig a) ≠ ∅ ∨
       is_Some (system.GenericSensors systemStats)) ∧
    (genericSensors (sensorConfig a) ≠ ∅ →
     (∀ name config,
        genericSensors (sensorConfig a) !! name = Some config →
        sensorFails name config w) →
     m = Some (genericMap systemStats) ∧
     (system.GenericSensors systemStats = None → m = Some ∅)).
Proof.
  unfold updateGenericSensors.
  case_bool_decide as Hsize.
  - apply map_size_empty_iff in Hsize.
    exists (system.GenericSensors systemStats), [].
    rewrite addLogs_nil. split; [by destruct systemStats|].
    split; [done|]. split; [done|]. split; [|done].
    split; [by right|]. by intros [?|?].
  - assert (Hne : genericSensors (sensorConfig a) ≠ ∅).
    { intros Hempty. apply Hsize. by rewrite Hempty. }
    destruct (genericLoop_lookup
                (map_to_list (genericSensors (sensorConfig a)))
                (genericMap systemStats) w
                (NoDup_fst_map_to_list _))
      as (stored & l & Hloop & Hlookup).
    exists (Some stored), l.
    unfold mbind, Go_bind. fold (genericMap systemStats). rewrite Hloop.
    split; [done|]. split; [done|]. split; [by eexists|].
    split; [split; [by left|by eexists]|].
    intros _ Hfail.
    assert (Hsame : stored = genericMap systemStats).
    { apply map_eq. intros name. destruct (Hlookup name) as [Hout Hin].
      destruct (genericSensors (sensorConfig a) !! name) as [config|] eqn:Hcfg.
      - destruct (Hin config) as (r & Hread & ->);
          [by apply elem_of_map_to_list|].
        destruct (Hfail name config Hcfg) as (value & err & Hread' & Hwhy).
        rewrite Hread' in Hread. injection Hread as <-.
        cbn [storedAfter]. destruct err as [e|]; [done|].
        destruct Hwhy as [[e He]|Hrange]; [done|]. by rewrite Hrange.
      - apply Hout. intros [[n c] [Hn Hnc]]%list_elem_of_fmap.
        simpl in Hn. subst n. apply elem_of_map_to_list in Hnc. congruence. }
    subst stored. split; [done|].
    intros Hnil. unfold genericMap. by rewrite Hnil.
Qed.

(** The all-fail clause of C5 at an input: one sensor is configured, its
    file holds 13.0, above the maximum of 12.5, and the map holds an entry
    of an earlier cycle; the cycle leaves the snapshot as it was, stale
    entry included. *)
Lemma generic_map_allocation_witness :
  let stale :=
    {| system.Value := 11.8; system.Unit := "V";
       system.Min := 0.5; system.Max := 12.5 |} in
  let before :=
    {| system.Temperatures := None;
       system.GenericSensors := Some {[ "voltage" := stale ]} |} in
  let files : gmap string DirEntry :=
    {[ "/generic-sensors/voltage" := Sample.plainFile "13.0" ]} in
  sensorFails (H := Sample.env) "voltage" Sample.voltage (Sample.world files) ∧
  returned
    (updateGenericSensors (H := Sample.env) (Sample.agent Sample.voltageConfig)
       before (Sample.world files))
  = Some before.
Proof.
  intros stale before files.
  assert (Hfails : sensorFails (H := Sample.env) "voltage" Sample.voltage
                     (Sample.world files)).
  { exists 13%float, None. split; [vm_compute; reflexivity|].
    right. vm_compute. reflexivity. }
  split; [exact Hfails|].
  destruct (generic_map_allocation (H := Sample.env)
              (Sample.agent Sample.voltageConfig) before (Sample.world files))
    as (m & l & Hreturn & _ & _ & _ & Hall).
  rewrite Hreturn. destruct Hall as [-> _]; [| |reflexivity].
  - intros Hempty.
    assert (Hlookup : genericSensors (sensorConfig (Sample.agent Sample.voltageConfig))
                        !! "voltage" = Some Sample.voltage)
      by (vm_compute; reflexivity).
    rewrite Hempty, lookup_empty in Hlookup. discriminate.
  - intros name config Hcfg.
    change (genericSensors (sensorConfig (Sample.agent Sample.voltageConfig)))
      with (<["voltage" := Sample.voltage]> (∅ : gmap string GenericSensorConfig))
      in Hcfg.
    apply lookup_insert_Some in Hcfg as [[<- <-]|[_ Hcfg]]; [exact Hfails|].
    by rewrite lookup_empty in Hcfg.
Defined.

(** C5 as stated fails: three sensors are configured, one without a file,
    one whose file is not a number and one whose value is out of range; all
    three fail, and the map, nil before, is allocated and empty. *)
Lemma generic_map_allocated_though_all_fail :
  let unitRange name :=
    {| Name := name; Unit := "x"; Maximum := 1%float; Minimum := 0%float |} in
  let config :=
    setGenericSensor
      (setGenericSensor Sample.voltageConfig "missing" (unitRange "missing"))
      "garbled" (unitRange "garbled") in
  let files : gmap string DirEntry :=
    {[ "/generic-sensors/voltage" := Sample.plainFile "13.0";
       "/generic-sensors/garbled" := Sample.plainFile "abc" ]} in
  system.GenericSensors Sample.noStats = None ∧
  returned
    (updateGenericSensors (H := Sample.env) (Sample.agent config)
       Sample.noStats (Sample.world files))
  = Some {| system.Temperatures := None; system.GenericSensors := Some ∅ |}.
Proof. split; vm_compute; reflexivity. Qed.

(** ** Temperature collector: output keys *)







(** ** Generic sensor collector: the value read and the range check *)

(** The entry of a sensor whose name is one path element is
    [/generic-sensors/<name>]. *)
Lemma Join_plain_name (name : string) :
  Strings.Contains name "/" = false →
  name ≠ "" → name ≠ "." → name ≠ ".." →
  Filepath.Join "/generic-sensors" name = "/generic-sensors/" +:+ name.
Proof.
  intros Hslash Hne Hdot Hdots. unfold Filepath.Join.
  change ("/generic-sensors" +:+ "/" +:+ name)
    with ("" +:+ String "/" ("generic-sensors" +:+ String "/" name)).
  rewrite !Split_at_sep by reflexivity.
  rewrite (Split_no_sep name "/" Hslash).
  cbn [fold_left]. unfold Filepath.cleanStep at 1 2 3.
  rewrite (bool_decide_eq_true_2 ("" = "" ∨ "" = ".")) by (by left).
  rewrite (bool_decide_eq_false_2 ("generic-sensors" = "" ∨ _)) by (by intros [|]).
  rewrite (bool_decide_eq_false_2 ("generic-sensors" = "..")) by done.
  rewrite (bool_decide_eq_false_2 (name = "" ∨ _)) by (by intros [|]).
  rewrite (bool_decide_eq_false_2 (name = "..")) by done.
  reflexivity.
Qed.

(** The value of a sensor is parsed from the whole trimmed contents of its
    entry; the execute permission of the entry and what it would print are
    not consulted. *)
Lemma collectGenericSensorValue_text `{GoEnv} name config w e data :
  fs w !! Filepath.Join "/generic-sensors" name = Some e →
  contents e = Some data →
  collectGenericSensorValue name config w =
    Return
      (match ParseFloat (Strings.TrimSpace data) with
       | Some value => (value, None)
       | None =>
           (0%float,
            Some (ErrReadSensor name (Filepath.Join "/generic-sensors" name)
                    (ErrParseValue (Strings.TrimSpace data)
                       (Filepath.Join "/generic-sensors" name))))
       end) w.
Proof.
  intros Hstat Hdata.
  unfold collectGenericSensorValue, ReadSensorFromFile, osStat, osReadFile,
    mbind, Go_bind, mret, Go_ret.
  cbv beta zeta. rewrite Hstat, Hstat, Hdata.
  by destruct (ParseFloat (Strings.TrimSpace data)).
Qed.

(** What the loop does with a value that was read. *)
Lemma genericStep_value `{GoEnv} name config stored w value :
  collectGenericSensorValue name config w = Return (value, None) w →
  genericStep name config stored w =
    if F64.lt value (Minimum config) || F64.gt value (Maximum config)
    then Return stored
           (addLogs w [ {| lvl := Warn;
                           msg := "Generic sensor value out of range";
                           about := name |} ])
    else Return (<[name := {| system.Value := twoDecimals value;
                              system.Unit := Unit config;
                              system.Min := Minimum config;
                              system.Max := Maximum config |}]> stored) w.
Proof.
  intros Hread. unfold genericStep, mbind, Go_bind. rewrite Hread.
  by destruct (F64.lt value (Minimum config) || F64.gt value (Maximum config)).
Qed.

(** Two values that are not NaN compare one way or the other. *)
Lemma ltb_negb_leb (x y : float) :
  PrimFloat.eqb x x = true → PrimFloat.eqb y y = true →
  PrimFloat.ltb x y = negb (PrimFloat.leb y x).
Proof.
  rewrite !FloatAxioms.eqb_spec, FloatAxioms.ltb_spec, FloatAxioms.leb_spec.
  unfold SFeqb, SFltb, SFleb.
  rewrite (SFcompare_swap (Prim2SF x) (Prim2SF y)).
  destruct (Prim2SF x) as [sx|sx| |sx mx ex], (Prim2SF y) as [sy|sy| |sy my ey];
    simpl; try discriminate; intros _ _;
    repeat match goal with s : bool |- _ => destruct s end; try reflexivity;
    destruct (ex ?= ey); simpl; try reflexivity;
    destruct (PosDef.Pos.compare_cont Eq mx my); reflexivity.
Qed.

(** For a value and bounds that are numbers, the range check of the loop
    lets through exactly the values with [minimum <= value <= maximum]. *)
Lemma range_check_numbers (value minimum maximum : float) :
  PrimFloat.eqb value value = true →
  PrimFloat.eqb minimum minimum = true →
  PrimFloat.eqb maximum maximum = true →
  F64.lt value minimum || F64.gt value maximum
    = negb (F64.le minimum value && F64.le value maximum).
Proof.
  intros Hv Hmin Hmax. unfold F64.lt, F64.gt, F64.le.
  rewrite (ltb_negb_leb value minimum Hv Hmin).
  rewrite (ltb_negb_leb maximum value Hmax Hv).
  by rewrite negb_andb.
Qed.

(** The two values of the specification, for the definition that
    [(voltage,V,12.5,0.5)] stands for: 13.0 is not stored, 11.8 is. *)
Lemma voltage_examples :
  let run (data : string) :=
    returned
      (updateGenericSensors (H := Sample.env) (Sample.agent Sample.voltageConfig)
         Sample.noStats
         (Sample.world {[ "/generic-sensors/voltage" := Sample.plainFile data ]})) in
  run "13.0"
    = Some {| system.Temperatures := None; system.GenericSensors := Some ∅ |} ∧
  run "11.8"
    = Some {| system.Temperatures := None;
              system.GenericSensors :=
                Some {[ "voltage" := {| system.Value := 11.8; system.Unit := "V";
                                        system.Min := 0.5; system.Max := 12.5 |} ]} |}.
Proof. split; vm_compute; reflexivity. Qed.

(** C8 fails on the code in two places.  A file that holds [NaN] is read
    with success; NaN is below no bound and above none, so the range check
    lets it through and it is stored, though it is not between the bounds.
    And the parser splits the configuration at every comma before it looks
    for parentheses, so the token [(voltage,V,12.5,0.5)] configures four
    temperature patterns and no generic sensor, and a backing value of 11.8
    is not stored. *)
Lemma out_of_range_value_stored :
  let stats (config : SensorConfig) (data : string) :=
    returned
      (updateGenericSensors (H := Sample.env) (Sample.agent config)
         Sample.noStats
         (Sample.world {[ "/generic-sensors/voltage" := Sample.plainFile data ]})) in
  stats Sample.voltageConfig "NaN"
    = Some {| system.Temperatures := None;
              system.GenericSensors :=
                Some {[ "voltage" := {| system.Value := PrimFloat.nan;
                                        system.Unit := "V";
                                        system.Min := 0.5;
                                        system.Max := 12.5 |} ]} |} ∧
  F64.le 0.5 PrimFloat.nan && F64.le PrimFloat.nan 12.5 = false ∧
  ∃ parsed,
    returned
      (newSensorConfigWithEnv (H := Sample.env) "" "" "(voltage,V,12.5,0.5)"
         false (Sample.world ∅))
      = Some parsed ∧
    genericSensors parsed = ∅ ∧
    sensors parsed = {[ "(voltage"; "V"; "12.5"; "0.5)" ]} ∧
    stats parsed "11.8" = Some Sample.noStats.
Proof.
  split; [vm_compute; reflexivity|]. split; [reflexivity|].
  eexists. split; [reflexivity|]. repeat split; vm_compute; reflexivity.
Qed.

(** C1 fails on the code in two places.  An entry with execute permission
    is not run: its contents, the text of the script, are read and do not
    parse, where the specification takes its output.  And the contents are
    not cut at the first line: a file of two lines does not parse, where
    the specification takes the first one. *)
Lemma executable_entry_is_read_not_run :
  let path := "/generic-sensors/latency" in
  let read (e : DirEntry) :=
    returned
      (collectGenericSensorValue (H := Sample.env) "latency"
         {| Name := "latency"; Unit := "ms"; Maximum := 1000; Minimum := 0 |}
         (Sample.world {[ path := e ]})) in
  let script :=
    {| contents := Some ("#!/bin/sh" +:+ nl +:+ "echo 42" +:+ nl);
       executable := true;
       stdout := "42" +:+ nl |} in
  let twoLines := Sample.plainFile ("11.8" +:+ nl +:+ "12.0" +:+ nl) in
  Filepath.Join "/generic-sensors" "latency" = path ∧
  valueTextOfSpec script = Some "42" ∧
  ParseFloat (GoEnv := Sample.env) "42" = Some 42%float ∧
  read script
    = Some (0%float,
            Some (ErrReadSensor "latency" path
                    (ErrParseValue ("#!/bin/sh" +:+ nl +:+ "echo 42") path))) ∧
  valueTextOfSpec twoLines = Some "11.8" ∧
  read twoLines
    = Some (0%float,
            Some (ErrReadSensor "latency" path
                    (ErrParseValue ("11.8" +:+ nl +:+ "12.0") path))).
Proof. repeat split; vm_compute; reflexivity. Qed.

(** ** The statements at concrete inputs *)

(** The whitelist [*acpi*,cpu_temp], visited against the order of
    [elements]: [thermal_acpi_0] is accepted, as the procedure says. *)
Lemma isValidSensor_decision_witness :
  let config :=
    setHasWildcards (addSensor (addSensor Sample.noConfig "*acpi*") "cpu_temp") in
  elements (sensors config) = ["cpu_temp"; "*acpi*"] ∧
  isValidSensorIn (H := Sample.env) ["*acpi*"; "cpu_temp"] "thermal_acpi_0" config
    = accept (H := Sample.env) "thermal_acpi_0" config ∧
  accept (H := Sample.env) "thermal_acpi_0" config = true ∧
  accept (H := Sample.env) "cpu_core_0" config = false.
Proof.
  split; [vm_compute; reflexivity|]. split; [|split; vm_compute; reflexivity].
  apply (isValidSensor_decision (H := Sample.env) ["*acpi*"; "cpu_temp"]
           "thermal_acpi_0").
  vm_compute. apply perm_swap.
Defined.

(** Two wildcard patterns that both match [ab], visited in the two orders. *)
Lemma isValidSensor_order_independent_witness :
  let config :=
    setHasWildcards (addSensor (addSensor Sample.noConfig "a*") "*b") in
  isValidSensorIn (H := Sample.env) ["a*"; "*b"] "ab" config
    = isValidSensorIn (H := Sample.env) ["*b"; "a*"] "ab" config.
Proof.
  apply (isValidSensor_order_independent (H := Sample.env)
           ["a*"; "*b"] ["*b"; "a*"] "ab").
  - vm_compute.
    first [ apply Permutation_refl | apply perm_swap ].
  - vm_compute.
    first [ apply Permutation_refl | apply perm_swap ].
Defined.



(** Tokens that are rejected, and the configuration strings the
    specification lists: each is parsed to a configuration. *)
Lemma malformed_tokens_skipped :
  let parse (sensorsEnvVal : string) :=
    config ← returned (newSensorConfigWithEnv (H := Sample.env) "" ""
                         sensorsEnvVal false (Sample.world ∅));
    Some (elements (sensors config), size (genericSensors config),
          isBlacklist config) in
  rejected (H := Sample.env) " (invalid_format) " Sample.noConfig (Sample.world ∅) ∧
  parse "cpu_temp,(invalid_format),gpu_temp"
    = Some (["gpu_temp"; "cpu_temp"], 0%nat, false) ∧
  parse "" = Some ([], 0%nat, false) ∧
  parse "-" = Some ([], 0%nat, true) ∧
  parse "(" = Some (["("], 0%nat, false) ∧
  parse ")" = Some ([")"], 0%nat, false) ∧
  parse "()" = Some ([], 0%nat, false).
Proof.
  split.
  - split; [by vm_compute|]. split; [reflexivity|]. split; [reflexivity|].
    eexists _, _, _. vm_compute. reflexivity.
  - repeat split; vm_compute; reflexivity.
Qed.

(** [parseGenericSensor] on tokens of four fields, which the parser of the
    whole string never hands to it: [(pressure,Pa,1000,0)] is accepted,
    [(pressure,Pa,0,1000)] is rejected. *)
Lemma parseGenericSensor_examples :
  let parse (sensor : string) :=
    '(err, config) ← returned (parseGenericSensor (H := Sample.env) sensor
                                 Sample.noConfig (Sample.world ∅));
    Some (err, map_to_list (genericSensors config)) in
  parse "(pressure,Pa,1000,0)"
    = Some (None, [("pressure", {| Name := "pressure"; Unit := "Pa";
                                   Maximum := 1000; Minimum := 0 |})]) ∧
  parse "(pressure,Pa,0,1000)" = Some (Some (ErrMinNotBelowMax 1000 0), []) ∧
  parse "(pressure,Pa,1000)" = Some (Some (ErrParts 3), []) ∧
  parse "(pressure,,1000,0)" = Some (Some ErrEmptyUnit, []) ∧
  parse "(pressure,Pa,abc,0)" = Some (Some (ErrMaximum "abc"), []).
Proof. repeat split; vm_compute; reflexivity. Qed.

(** C9 fails at a malformed generic sensor token that has a comma.  The
    token [(pressure,Pa,abc,0)], whose maximum is no number, is rejected by
    [parseGenericSensor] when it is handed to it whole.  The parser of the
    configuration string never hands it over: it splits the string at
    every comma first, so the token is not skipped but taken as the four
    temperature patterns [(pressure], [Pa], [abc] and [0)], and nothing is
    logged.  The filter changes with them: the token alone makes a
    whitelist that rejects [gpu_temp], which the empty configuration
    accepts, and beside two patterns it puts the sensor [abc] on the
    whitelist.  Tokens with three fields, or with a minimum above the
    maximum, fare the same. *)
Lemma malformed_generic_token_becomes_patterns :
  let parse (sensorsEnvVal : string) :=
    newSensorConfigWithEnv (H := Sample.env) "" "" sensorsEnvVal false
      (Sample.world ∅) in
  let patterns (sensorsEnvVal : string) :=
    config ← returned (parse sensorsEnvVal);
    Some (elements (sensors config), size (genericSensors config)) in
  let verdict (sensorName sensorsEnvVal : string) :=
    config ← returned (parse sensorsEnvVal);
    Some (isValidSensor (H := Sample.env) sensorName config) in
  (returned (parseGenericSensor (H := Sample.env) "(pressure,Pa,abc,0)"
               Sample.noConfig (Sample.world ∅))
   = Some (Some (ErrMaximum "abc"), Sample.noConfig)) ∧
  patterns "(pressure,Pa,abc,0)"
    = Some (["abc"; "(pressure"; "0)"; "Pa"], 0%nat) ∧
  logs (worldAfter (parse "(pressure,Pa,abc,0)")) = [] ∧
  verdict "gpu_temp" "" = Some true ∧
  verdict "gpu_temp" "(pressure,Pa,abc,0)" = Some false ∧
  patterns "cpu_temp,(pressure,Pa,abc,0),gpu_temp"
    = Some (["gpu_temp"; "cpu_temp"; "abc"; "(pressure"; "0)"; "Pa"], 0%nat) ∧
  logs (worldAfter (parse "cpu_temp,(pressure,Pa,abc,0),gpu_temp")) = [] ∧
  verdict "abc" "cpu_temp,gpu_temp" = Some false ∧
  verdict "abc" "cpu_temp,(pressure,Pa,abc,0),gpu_temp" = Some true ∧
  patterns "cpu_temp,(pressure,Pa,1000),gpu_temp"
    = Some (["gpu_temp"; "cpu_temp"; "1000)"; "(pressure"; "Pa"], 0%nat) ∧
  patterns "(pressure,Pa,0,1000)"
    = Some (["1000)"; "(pressure"; "0"; "Pa"], 0%nat).
Proof. repeat split; vm_compute; reflexivity. Qed.

(** * Further properties *)

(** ** Temperature collector: what a cycle does to the agent and the snapshot *)

Section TemperatureProperties.
Context `{GoEnv}.

Lemma tempStep_cases config i sensor dash (m : gmap string float) :
  tempStep config i sensor (dash, m) = (dash, m) ∨
  ∃ key t,
    key = outputKey m (SensorKey sensor) i ∧
    t = scaled (Temperature sensor) ∧
    plausible t = true ∧
    isValidSensor key config = true ∧
    tempStep config i sensor (dash, m)
      = (if bool_decide (primarySensor config = "") then F64.max dash t
         else if bool_decide (primarySensor config = key) then t else dash,
         <[key := twoDecimals t]> m).
Proof.
  unfold tempStep.
  destruct (bool_decide (GOOS = "darwin") && negb (ValidString (SensorKey sensor)));
    [by left|].
  destruct (F64.le (scaled (Temperature sensor)) 0
            || F64.ge (scaled (Temperature sensor)) 200) eqn:Hplausible;
    [by left|].
  destruct (isValidSensor _ config) eqn:Hvalid; [|by left].
  right. eexists _, _. repeat split; try done.
  unfold plausible. by rewrite Hplausible.
Qed.

(** The entries of the map after the loop: those it had, or entries of
    readings that passed every check. *)
Lemma tempLoop_entries config i temps dash (m : gmap string float) dash' m' :
  tempLoop config i temps (dash, m) = (dash', m') →
  ∀ key v, m' !! key = Some v →
    m !! key = Some v ∨
    (isValidSensor key config = true ∧
     ∃ t, plausible t = true ∧ v = twoDecimals t).
Proof.
  revert i dash m. induction temps as [|sensor rest IH]; intros i dash m.
  - intros [= <- <-] key v Hkey. by left.
  - cbn [tempLoop].
    destruct (tempStep_cases config i sensor dash m)
      as [->|(k & t & Hk & Ht & Hplausible & Hvalid & ->)].
    + apply IH.
    + intros Hloop key v Hkey.
      destruct (IH _ _ _ Hloop key v Hkey) as [Hold|Hnew]; [|by right].
      destruct (decide (k = key)) as [->|Hne].
      * rewrite lookup_insert_eq in Hold. injection Hold as <-.
        right. split; [done|]. by exists t.
      * rewrite lookup_insert_ne in Hold by done. by left.
Qed.

(** The loop removes no key. *)
Lemma tempLoop_keeps_keys config i temps dash (m : gmap string float) dash' m' key :
  tempLoop config i temps (dash, m) = (dash', m') →
  is_Some (m !! key) → is_Some (m' !! key).
Proof.
  revert i dash m. induction temps as [|sensor rest IH]; intros i dash m.
  - by intros [= <- <-].
  - cbn [tempLoop].
    destruct (tempStep_cases config i sensor dash m)
      as [->|(k & t & _ & _ & _ & _ & ->)]; [apply IH|].
    intros Hloop Hkey. apply (IH _ _ _ Hloop).
    destruct (decide (k = key)) as [->|Hne].
    + rewrite lookup_insert_eq. by eexists.
    + by rewrite lookup_insert_ne.
Qed.

(** With a primary sensor configured, the dashboard temperature moves only
    when a reading is stored under the name of the primary sensor. *)
Lemma tempLoop_primary_absent config i temps dash (m : gmap string float) dash' m' :
  primarySensor config ≠ "" →
  tempLoop config i temps (dash, m) = (dash', m') →
  m' !! primarySensor config = None →
  dash' = dash.
Proof.
  intros Hprimary. revert i dash m.
  induction temps as [|sensor rest IH]; intros i dash m.
  - by intros [= <- <-].
  - cbn [tempLoop].
    destruct (tempStep_cases config i sensor dash m)
      as [->|(k & t & _ & _ & _ & _ & ->)]; [apply IH|].
    intros Hloop Habsent.
    rewrite (IH _ _ _ Hloop Habsent).
    rewrite bool_decide_eq_false_2 by done.
    destruct (decide (primarySensor config = k)) as [Hk|Hk];
      [|by rewrite bool_decide_eq_false_2].
    exfalso.
    assert (is_Some (m' !! primarySensor config)) as [? Hsome]; [|congruence].
    apply (tempLoop_keeps_keys _ _ _ _ _ _ _ _ Hloop).
    rewrite Hk, lookup_insert_eq. by eexists.
Qed.

(** The loop stores at most one entry for each reading. *)
Lemma tempLoop_size config i temps dash (m : gmap string float) dash' m' :
  tempLoop config i temps (dash, m) = (dash', m') →
  (size m' ≤ size m + length temps)%nat.
Proof.
  revert i dash m. induction temps as [|sensor rest IH]; intros i dash m.
  - intros [= <- <-]. cbn [length]. lia.
  - cbn [tempLoop length].
    destruct (tempStep_cases config i sensor dash m)
      as [->|(k & t & _ & _ & _ & _ & ->)].
    + intros Hloop. apply IH in Hloop. lia.
    + intros Hloop. apply IH in Hloop.
      pose proof (map_size_insert k (twoDecimals t) m) as Hsize.
      destruct (m !! k); cbn beta iota in Hsize; unfold id in Hsize; lia.
Qed.

End TemperatureProperties.

Section TemperatureCycle.
Context `{GoEnv}.

Lemma storeTemperatures_cases a systemStats temps w :
  storeTemperatures a systemStats temps w =
    Return
      (if bool_decide (length temps = 0%nat) then (a, systemStats)
       else
         let st := tempLoop (sensorConfig a) 0 temps
                     (system.DashboardTemp (systemInfo a), ∅) in
         (setDashboardTemp a st.1, setTemperatures systemStats (Some st.2)))
      (addLogs w [temperatureDebug]).
Proof.
  unfold storeTemperatures, mbind, Go_bind, slog, mret, Go_ret.
  case_bool_decide; [done|]. cbv zeta. by destruct (tempLoop _ _ _ _).
Qed.

Lemma updateTemperatures_cases source a systemStats w :
  updateTemperatures source a systemStats w =
    if skipCollection (sensorConfig a) then
      Return (a, systemStats)
        (addLogs w [ {| lvl := Debug; msg := "Skipping temperature collection";
                        about := "" |} ])
    else
      match source (context (sensorConfig a)) (sourceCalls w) with
      | Yields temps _ =>
          storeTemperatures (setDashboardTemp a 0) systemStats temps (addCalls w 1)
      | Panics _ =>
          match source (context (sensorConfig a)) (S (sourceCalls w)) with
          | Yields temps _ =>
              storeTemperatures (setDashboardTemp a 0) systemStats temps
                (addCalls w 2)
          | Panics r =>
              Return (setDashboardTemp a 0, clearedTemperatures systemStats)
                (addLogs (addCalls w 2) [temperatureWarning ("panic: " +:+ r)])
          end
      end.
Proof.
  unfold updateTemperatures.
  destruct (skipCollection (sensorConfig a)); [done|].
  unfold mbind, Go_bind at 1.
  unfold getTempsWithPanicRecovery at 1, getSensorTemps at 1.
  simpl.
  destruct (source (context (sensorConfig a)) (sourceCalls w))
    as [r1|temps err]; [|done].
  unfold mbind, Go_bind at 1.
  unfold getTempsWithPanicRecovery at 1, getSensorTemps at 1.
  simpl.
  destruct (source (context (sensorConfig a)) (S (sourceCalls w)))
    as [r2|temps err]; [|done].
  unfold clearedTemperatures, mbind, Go_bind, slog, mret, Go_ret.
  by case_bool_decide.
Qed.

End TemperatureCycle.

(** X1: whatever the sensor source does, panics included, the temperature
    collector returns.  It leaves the configuration of the agent, the files
    and the generic sensor map of the snapshot as they were, and it invokes
    the source not at all when collection is skipped, once when the first
    invocation answers and twice when it panics. *)
Theorem updateTemperatures_contains_panics `{GoEnv}
    (source : option string → nat → SourceBehaviour) (a : Agent)
    (systemStats : system.Stats) (w : World) :
  ∃ a' systemStats' l,
    updateTemperatures source a systemStats w
      = Return (a', systemStats')
          (addLogs
             (addCalls w
                (if skipCollection (sensorConfig a) then 0
                 else match source (context (sensorConfig a)) (sourceCalls w) with
                      | Yields _ _ => 1
                      | Panics _ => 2
                      end)) l) ∧
    sensorConfig a' = sensorConfig a ∧
    system.GenericSensors systemStats' = system.GenericSensors systemStats.
Proof.
  rewrite updateTemperatures_cases.
  destruct (skipCollection (sensorConfig a)).
  { eexists a, systemStats, [_]. by destruct w. }
  assert (Hstore : ∀ temps w0, ∃ a' systemStats' l,
    storeTemperatures (setDashboardTemp a 0) systemStats temps w0
      = Return (a', systemStats') (addLogs w0 l) ∧
    sensorConfig a' = sensorConfig a ∧
    system.GenericSensors systemStats' = system.GenericSensors systemStats).
  { intros temps w0. rewrite storeTemperatures_cases.
    case_bool_decide; eexists _, _, [_]; (split; [reflexivity|done]). }
  destruct (source (context (sensorConfig a)) (sourceCalls w)) as [r1|temps err];
    [|apply Hstore].
  destruct (source (context (sensorConfig a)) (S (sourceCalls w)))
    as [r2|temps err]; [|apply Hstore].
  eexists _, _, [_]. split; [reflexivity|]. split; [done|].
  unfold clearedTemperatures. by case_bool_decide.
Qed.

(** X2: after a cycle the temperature map of the snapshot is the one it
    was, or it is a map in which every entry is under a key the filter
    accepts and holds the rounding to two decimals of a temperature that
    passed the plausibility check. *)
Theorem stored_temperatures_pass_checks `{GoEnv}
    (source : option string → nat → SourceBehaviour) (a : Agent)
    (systemStats : system.Stats) (w : World) :
  ∃ a' systemStats' w',
    updateTemperatures source a systemStats w = Return (a', systemStats') w' ∧
    (system.Temperatures systemStats' = system.Temperatures systemStats ∨
     ∃ m, system.Temperatures systemStats' = Some m ∧
       ∀ key v, m !! key = Some v →
         isValidSensor key (sensorConfig a) = true ∧
         ∃ t, plausible t = true ∧ v = twoDecimals t).
Proof.
  rewrite updateTemperatures_cases.
  destruct (skipCollection (sensorConfig a)).
  { eexists _, _, _. split; [reflexivity|by left]. }
  assert (Hstore : ∀ temps w0, ∃ a' systemStats' w',
    storeTemperatures (setDashboardTemp a 0) systemStats temps w0
      = Return (a', systemStats') w' ∧
    (system.Temperatures systemStats' = system.Temperatures systemStats ∨
     ∃ m, system.Temperatures systemStats' = Some m ∧
       ∀ key v, m !! key = Some v →
         isValidSensor key (sensorConfig a) = true ∧
         ∃ t, plausible t = true ∧ v = twoDecimals t)).
  { intros temps w0. rewrite storeTemperatures_cases.
    case_bool_decide; eexists _, _, _; (split; [reflexivity|]); [by left|].
    right. eexists. split; [reflexivity|]. intros key v Hkey.
    destruct (tempLoop (sensorConfig (setDashboardTemp a 0)) 0 temps
                (system.DashboardTemp (systemInfo (setDashboardTemp a 0)), ∅))
      as [dash' m'] eqn:Hloop.
    destruct (tempLoop_entries _ _ _ _ _ _ _ Hloop key v Hkey) as [Hold|Hnew];
      [by rewrite lookup_empty in Hold|done]. }
  destruct (source (context (sensorConfig a)) (sourceCalls w)) as [r1|temps err];
    [|apply Hstore].
  destruct (source (context (sensorConfig a)) (S (sourceCalls w)))
    as [r2|temps err]; [|apply Hstore].
  eexists _, _, _. split; [reflexivity|].
  unfold clearedTemperatures. case_bool_decide; [|by left].
  right. exists ∅. split; [done|]. intros key v Hkey.
  by rewrite lookup_empty in Hkey.
Qed.

(** X3: in a cycle that is not skipped, with a primary sensor configured,
    the dashboard temperature is zero unless the temperature map of the
    snapshot has an entry under the name of the primary sensor. *)
Theorem dashboard_zero_without_primary `{GoEnv}
    (source : option string → nat → SourceBehaviour) (a a' : Agent)
    (systemStats systemStats' : system.Stats) (w w' : World) :
  skipCollection (sensorConfig a) = false →
  primarySensor (sensorConfig a) ≠ "" →
  updateTemperatures source a systemStats w = Return (a', systemStats') w' →
  (∀ m, system.Temperatures systemStats' = Some m →
        m !! primarySensor (sensorConfig a) = None) →
  system.DashboardTemp (systemInfo a') = 0%float.
Proof.
  intros Hskip Hprimary. rewrite updateTemperatures_cases, Hskip.
  assert (Hstore : ∀ temps w0,
    storeTemperatures (setDashboardTemp a 0) systemStats temps w0
      = Return (a', systemStats') w' →
    (∀ m, system.Temperatures systemStats' = Some m →
          m !! primarySensor (sensorConfig a) = None) →
    system.DashboardTemp (systemInfo a') = 0%float).
  { intros temps w0. rewrite storeTemperatures_cases.
    case_bool_decide; [by intros [= <- <- _]|].
    destruct (tempLoop (sensorConfig (setDashboardTemp a 0)) 0 temps
                (system.DashboardTemp (systemInfo (setDashboardTemp a 0)), ∅))
      as [dash' m'] eqn:Hloop.
    cbv zeta. intros [= <- <- _] Habsent. cbn.
    apply (tempLoop_primary_absent _ _ _ _ _ _ _ Hprimary Hloop).
    by apply Habsent. }
  destruct (source (context (sensorConfig a)) (sourceCalls w)) as [r1|temps err];
    [|apply Hstore].
  destruct (source (context (sensorConfig a)) (S (sourceCalls w)))
    as [r2|temps err]; [|apply Hstore].
  by intros [= <- <- _].
Qed.

(** A primary sensor that no reading is stored under: the reading is
    stored and the dashboard temperature stays at zero. *)
Lemma dashboard_zero_without_primary_witness :
  let config :=
    {| context := None; sensors := ∅; genericSensors := ∅;
       primarySensor := "gpu"; isBlacklist := false; hasWildcards := false;
       skipCollection := false |} in
  let source := λ (_ : option string) (_ : nat),
    Yields [Sample.reading "core" 50] None in
  let stored :=
    {| system.Temperatures := Some {[ "core" := 50%float ]};
       system.GenericSensors := None |} in
  let w' := {| logs := [temperatureDebug]; sourceCalls := 1; fs := ∅ |} in
  updateTemperatures (H := Sample.env) source (Sample.agent config)
    Sample.noStats (Sample.world ∅)
  = Return (Sample.agent config, stored) w' ∧
  system.DashboardTemp (systemInfo (Sample.agent config)) = 0%float.
Proof.
  cbv zeta. split; [vm_compute; reflexivity|].
  eapply (dashboard_zero_without_primary (H := Sample.env)
            (λ _ _, Yields [Sample.reading "core" 50] None)
            (Sample.agent
               {| context := None; sensors := ∅; genericSensors := ∅;
                  primarySensor := "gpu"; isBlacklist := false;
                  hasWildcards := false; skipCollection := false |})
            _ Sample.noStats
            {| system.Temperatures := Some {[ "core" := 50%float ]};
               system.GenericSensors := None |}
            (Sample.world ∅)
            {| logs := [temperatureDebug]; sourceCalls := 1; fs := ∅ |}).
  - reflexivity.
  - discriminate.
  - vm_compute. reflexivity.
  - intros m [= <-]. vm_compute. reflexivity.
Defined.

(** ** Generic sensor collector: what a cycle stores *)

(** X5: what a cycle leaves in the generic sensor map, name by name.  The
    collector returns, and changes only the log and the generic sensor map.
    Under the name of a configured sensor that is read with success and
    lies within its bounds, the map holds the rounded value with the unit
    and the bounds of the definition.  Under every other name, a sensor
    that failed or is out of range included, the map holds what it held
    before the cycle. *)
Theorem updateGenericSensors_lookup `{GoEnv} (a : Agent)
    (systemStats : system.Stats) (w : World) :
  ∃ m l,
    updateGenericSensors a systemStats w
      = Return (setGenericSensors systemStats m) (addLogs w l) ∧
    ∀ name,
      match genericSensors (sensorConfig a) !! name with
      | None =>
          genericMap (setGenericSensors systemStats m) !! name
            = genericMap systemStats !! name
      | Some config =>
          ∃ r, collectGenericSensorValue name config w = Return r w ∧
               genericMap (setGenericSensors systemStats m) !! name
                 = storedAfter config r (genericMap systemStats !! name)
      end.
Proof.
  unfold updateGenericSensors. case_bool_decide as Hsize.
  - apply map_size_empty_iff in Hsize.
    exists (system.GenericSensors systemStats), [].
    rewrite addLogs_nil. split; [by destruct systemStats|].
    intros name. rewrite Hsize, lookup_empty. by destruct systemStats.
  - destruct (genericLoop_lookup
                (map_to_list (genericSensors (sensorConfig a)))
                (genericMap systemStats) w
                (NoDup_fst_map_to_list _))
      as (stored & l & Hloop & Hlookup).
    exists (Some stored), l. unfold mbind, Go_bind.
    fold (genericMap systemStats). rewrite Hloop. split; [done|].
    intros name. destruct (Hlookup name) as [Hout Hin].
    destruct (genericSensors (sensorConfig a) !! name) as [config|] eqn:Hcfg.
    + apply Hin. by apply elem_of_map_to_list.
    + apply Hout. intros [[n c] [Hn Hnc]]%list_elem_of_fmap.
      simpl in Hn. subst n. apply elem_of_map_to_list in Hnc. congruence.
Qed.

(** X6: [GetGenericSensorNames] lists every configured generic sensor
    once: a name is listed exactly when it is configured, no name is
    listed twice, and there are as many names as definitions. *)
Theorem GetGenericSensorNames_keys (a : Agent) :
  NoDup (GetGenericSensorNames a) ∧
  length (GetGenericSensorNames a) = size (genericSensors (sensorConfig a)) ∧
  ∀ name,
    name ∈ GetGenericSensorNames a ↔
    is_Some (genericSensors (sensorConfig a) !! name).
Proof.
  unfold GetGenericSensorNames. split; [apply NoDup_fst_map_to_list|].
  split; [by rewrite length_fmap, length_map_to_list|].
  intros name. rewrite list_elem_of_fmap. split.
  - intros [[n c] [-> Hin]]. apply elem_of_map_to_list in Hin. by eexists.
  - intros [c Hc]. exists (name, c). split; [done|].
    by apply elem_of_map_to_list.
Qed.

(** ** Config parser: the configuration it returns *)

Lemma substring_all (s : string) : String.substring 0 (String.length s) s = s.
Proof. induction s as [|c s IH]; [done|]. simpl. by rewrite IH. Qed.

Lemma sliceFrom_tail (c : ascii) (rest : string) :
  Strings.sliceFrom (String c rest) 1 = Ok rest.
Proof.
  unfold Strings.sliceFrom, Strings.slice, Strings.len.
  rewrite bool_decide_eq_true_2 by (simpl String.length; lia).
  f_equal. simpl String.length.
  replace (Z.to_nat (Z.of_nat (S (String.length rest)) - 1))
    with (String.length rest) by lia.
  change (Z.to_nat 1) with 1%nat. simpl. apply substring_all.
Qed.

Lemma HasPrefix_dash (s : string) :
  Strings.HasPrefix s "-" = true → s = String "-" (withoutDash s).
Proof.
  unfold Strings.HasPrefix. destruct s as [|c rest]; [done|].
  cbn [String.prefix].
  destruct (Ascii.ascii_dec "-" c) as [<-|]; [done|discriminate].
Qed.

Lemma withoutDash_no_dash (s : string) :
  Strings.HasPrefix s "-" = false → withoutDash s = s.
Proof.
  unfold Strings.HasPrefix. destruct s as [|c rest]; [done|].
  cbn [String.prefix].
  destruct (Ascii.ascii_dec "-" c) as [<-|Hne]; [by destruct rest|].
  intros _. unfold withoutDash.
  destruct c as [[] [] [] [] [] [] [] []]; try reflexivity. by destruct Hne.
Qed.

Section ParserResult.
Context `{GoEnv}.

(** What the loop does with one token that has no comma in it. *)
Lemma parseToken_free sensor config w :
  free "," sensor →
  parseToken sensor config w =
    let token := Strings.TrimSpace sensor in
    if bool_decide (token ≠ "") then
      if parenthesised token then Return config (warned sensor w)
      else
        Return (if Strings.Contains token "*"
                then setHasWildcards (addSensor config token)
                else addSensor config token) w
    else Return config w.
Proof.
  intros Hfree%free_TrimSpace. unfold parseToken, parenthesised. cbv zeta.
  case_bool_decide; [|done].
  destruct (Strings.HasPrefix (Strings.TrimSpace sensor) "(") eqn:Hpre;
    [destruct (Strings.HasSuffix (Strings.TrimSpace sensor) ")") eqn:Hsuf|];
    cbn [andb]; try by destruct (Strings.Contains _ "*").
  destruct (parseGenericSensor_returns (Strings.TrimSpace sensor) config w
              Hpre Hsuf) as (err & config' & w' & Hparse & Herr).
  pose proof (parseGenericSensor_one_field _ _ _ _ _ _ Hfree Hparse) as ->.
  unfold mbind, Go_bind at 1. rewrite Hparse.
  destruct err as [e|]; [by destruct Herr as [_ ->]|].
  exfalso. revert Hparse.
  unfold parseGenericSensor, mbind, Go_bind, lift, Strings.slice.
  case_bool_decide; [|done].
  by rewrite Split_no_sep by (by apply free_substring).
Qed.

Lemma patternTokens_cons token tokens :
  patternTokens (token :: tokens) =
    if bool_decide (Strings.TrimSpace token ≠ "") &&
       negb (parenthesised (Strings.TrimSpace token))
    then Strings.TrimSpace token :: patternTokens tokens
    else patternTokens tokens.
Proof.
  unfold patternTokens. rewrite fmap_cons, filter_cons.
  case_bool_decide as Hne; destruct (parenthesised _) eqn:Hpar; simpl.
  - rewrite decide_False; [done|]. intros [_ ?]. congruence.
  - by rewrite decide_True.
  - rewrite decide_False; [done|]. by intros [? _].
  - rewrite decide_False; [done|]. by intros [? _].
Qed.

Lemma parseTokens_result tokens config w :
  Forall (free ",") tokens →
  ∃ config' l,
    parseTokens tokens config w = Return config' (addLogs w l) ∧
    sensors config' = list_to_set (patternTokens tokens) ∪ sensors config ∧
    hasWildcards config' =
      hasWildcards config ||
      existsb (λ p, Strings.Contains p "*") (patternTokens tokens) ∧
    genericSensors config' = genericSensors config ∧
    context config' = context config ∧
    primarySensor config' = primarySensor config ∧
    isBlacklist config' = isBlacklist config ∧
    skipCollection config' = skipCollection config.
Proof.
  intros Hfree. revert config w.
  induction Hfree as [|sensor rest Hsensor _ IH]; intros config w.
  - exists config, []. rewrite addLogs_nil. split; [done|].
    change (patternTokens []) with (@nil string).
    split; [by rewrite list_to_set_nil, (left_id_L ∅ (∪))|].
    split; [by rewrite orb_false_r|]. done.
  - cbn [parseTokens]. unfold mbind, Go_bind at 1.
    rewrite (parseToken_free sensor config w Hsensor), patternTokens_cons.
    cbv zeta. case_bool_decide as Hne; cbn [andb].
    2:{ destruct (IH config w) as (c & l & Hrest & Hc). by exists c, l. }
    destruct (parenthesised (Strings.TrimSpace sensor)); cbn [negb].
    { destruct (IH config (warned sensor w)) as (c & l & Hrest & Hc).
      exists c. eexists (_ :: l). split; [|done]. rewrite Hrest. f_equal.
      unfold warned, addLogs. simpl. by rewrite <- app_assoc. }
    destruct (Strings.Contains (Strings.TrimSpace sensor) "*") eqn:Hstar.
    + destruct (IH (setHasWildcards (addSensor config (Strings.TrimSpace sensor))) w)
        as (c & l & Hrest & Hs & Hw & Hg & Hc).
      exists c, l. split; [done|].
      split.
      { rewrite Hs, list_to_set_cons. cbn [sensors addSensor setHasWildcards].
        rewrite (assoc_L (∪)). f_equal. apply (comm_L (∪)). }
      split; [|done]. rewrite Hw. cbn. rewrite Hstar.
      by rewrite orb_true_r.
    + destruct (IH (addSensor config (Strings.TrimSpace sensor)) w)
        as (c & l & Hrest & Hs & Hw & Hg & Hc).
      exists c, l. split; [done|].
      split.
      { rewrite Hs, list_to_set_cons. cbn [sensors addSensor setHasWildcards].
        rewrite (assoc_L (∪)). f_equal. apply (comm_L (∪)). }
      split; [|done]. rewrite Hw. cbn. by rewrite Hstar.
Qed.

Lemma sliceFrom_withoutDash (s : string) :
  Strings.HasPrefix s "-" = true →
  Strings.sliceFrom s 1 = Ok (withoutDash s).
Proof.
  intros Hdash. rewrite (HasPrefix_dash s Hdash) at 1. apply sliceFrom_tail.
Qed.

(** The loop over the tokens of a text, from a configuration without
    patterns. *)
Lemma parseTokens_of_text body config w :
  sensors config = ∅ → hasWildcards config = false →
  let patterns := patternTokens (Strings.Split body ",") in
  ∃ config' l,
    parseTokens (Strings.Split body ",") config w = Return config' (addLogs w l) ∧
    sensors config' = list_to_set patterns ∧
    hasWildcards config' = existsb (λ p, Strings.Contains p "*") patterns ∧
    wildcardsFlagged config' ∧
    genericSensors config' = genericSensors config ∧
    context config' = context config ∧
    primarySensor config' = primarySensor config ∧
    isBlacklist config' = isBlacklist config ∧
    skipCollection config' = skipCollection config.
Proof.
  intros Hs Hw. cbv zeta.
  destruct (parseTokens_result _ config w (Split_free body ","))
    as (c & l & Hrun & Hsc & Hwc & Hrest).
  rewrite Hs, (right_id_L ∅ (∪)) in Hsc. rewrite Hw in Hwc. cbn [orb] in Hwc.
  exists c, l. split; [done|]. split; [done|]. split; [done|].
  split; [|done].
  unfold wildcardsFlagged. rewrite Hsc, Hwc, existsb_exists. split.
  - intros (p & Hp & Hstar). exists p. split; [|done].
    apply elem_of_list_to_set. by apply list_elem_of_In.
  - intros (p & Hp & Hstar). exists p. split; [|done].
    apply list_elem_of_In. by apply elem_of_list_to_set in Hp.
Qed.

End ParserResult.

(** The fields of the configuration the parser returns. *)
Lemma newSensorConfigWithEnv_fields `{GoEnv}
    (primarySensor0 sysSensors sensorsEnvVal : string) (skip : bool) (w : World) :
  let patterns :=
    patternTokens (Strings.Split (withoutDash sensorsEnvVal) ",") in
  ∃ config l,
    newSensorConfigWithEnv primarySensor0 sysSensors sensorsEnvVal skip w
      = Return config (addLogs w l) ∧
    sensors config = list_to_set patterns ∧
    isBlacklist config = Strings.HasPrefix sensorsEnvVal "-" ∧
    hasWildcards config = existsb (λ p, Strings.Contains p "*") patterns ∧
    wildcardsFlagged config ∧
    genericSensors config = ∅ ∧
    primarySensor config = primarySensor0 ∧
    skipCollection config = skip ∧
    context config = (if bool_decide (sysSensors ≠ "") then Some sysSensors
                      else None).
Proof.
  cbv zeta. unfold newSensorConfigWithEnv.
  set (config0 := {| context := None; sensors := ∅; genericSensors := ∅;
                     primarySensor := primarySensor0; isBlacklist := false;
                     hasWildcards := false; skipCollection := skip |}).
  set (info := {| lvl := Info; msg := "SYS_SENSORS"; about := sysSensors |}).
  destruct (Strings.HasPrefix sensorsEnvVal "-") eqn:Hdash;
    [ pose proof (sliceFrom_withoutDash _ Hdash) as Hslice
    | rewrite (withoutDash_no_dash _ Hdash) ];
    case_bool_decide as Hsys;
    unfold mbind, Go_bind, slog, mret, Go_ret, lift; rewrite ?Hslice.
  - destruct (parseTokens_of_text (withoutDash sensorsEnvVal)
                (setIsBlacklist (setContext config0 sysSensors))
                (addLogs w [info]) eq_refl eq_refl)
      as (c & l & Hrun & Hs & Hw & Hf & Hg & Hc & Hp & Hb & Hk).
    exists c. eexists (info :: l).
    split; [by rewrite addLogs_addLogs in Hrun|]. by split_and!.
  - destruct (parseTokens_of_text (withoutDash sensorsEnvVal)
                (setIsBlacklist config0) w eq_refl eq_refl)
      as (c & l & Hrun & Hs & Hw & Hf & Hg & Hc & Hp & Hb & Hk).
    exists c, l. by split_and!.
  - destruct (parseTokens_of_text sensorsEnvVal
                (setContext config0 sysSensors)
                (addLogs w [info]) eq_refl eq_refl)
      as (c & l & Hrun & Hs & Hw & Hf & Hg & Hc & Hp & Hb & Hk).
    exists c. eexists (info :: l).
    split; [by rewrite addLogs_addLogs in Hrun|]. by split_and!.
  - destruct (parseTokens_of_text sensorsEnvVal config0 w eq_refl eq_refl)
      as (c & l & Hrun & Hs & Hw & Hf & Hg & Hc & Hp & Hb & Hk).
    exists c, l. by split_and!.
Qed.

(** X7: the configuration the parser returns, field by field.  The
    patterns are the tokens between the commas of the text after its
    leading dash, trimmed, without the empty ones and those in parentheses;
    the list is a blacklist exactly when the text starts with a dash; the
    wildcard flag is set exactly when a pattern contains a star; the
    primary sensor and the skip flag are the ones passed, the sensors
    context is set exactly when [sysSensors] is not empty, and no generic
    sensor is configured. *)
Theorem newSensorConfigWithEnv_result `{GoEnv}
    (primarySensor0 sysSensors sensorsEnvVal : string) (skip : bool) (w : World) :
  let patterns :=
    patternTokens (Strings.Split (withoutDash sensorsEnvVal) ",") in
  ∃ config l,
    newSensorConfigWithEnv primarySensor0 sysSensors sensorsEnvVal skip w
      = Return config (addLogs w l) ∧
    sensors config = list_to_set patterns ∧
    isBlacklist config = Strings.HasPrefix sensorsEnvVal "-" ∧
    hasWildcards config = existsb (λ p, Strings.Contains p "*") patterns ∧
    wildcardsFlagged config ∧
    genericSensors config = ∅ ∧
    primarySensor config = primarySensor0 ∧
    skipCollection config = skip ∧
    context config = (if bool_decide (sysSensors ≠ "") then Some sysSensors
                      else None).
Proof. apply newSensorConfigWithEnv_fields. Qed.

(** ** Filter evaluator: polarity and the wildcard flag *)

(** X8: when the wildcard flag of a configuration is set exactly if one of
    its patterns contains a star, as the parser leaves it, the flag is a
    shortcut only: a name that is no generic sensor is matched when it is
    a pattern or some wildcard pattern matches it, a whitelist accepts the
    matched names, a blacklist the others, and a configuration without
    patterns accepts every name. *)
Theorem isValidSensor_flagged `{GoEnv} (name : string) (config : SensorConfig) :
  wildcardsFlagged config →
  genericSensors config !! name = None →
  isValidSensor name config =
    if bool_decide (sensors config = ∅) then true
    else if bool_decide
              (name ∈ sensors config ∨
               ∃ pattern, pattern ∈ sensors config ∧ hits name pattern)
         then negb (isBlacklist config)
    else isBlacklist config.
Proof.
  intros Hflag Hgeneric. unfold isValidSensor.
  rewrite (isValidSensorIn_accept _ name config) by done. unfold accept.
  rewrite bool_decide_eq_false_2
    by (rewrite elem_of_dom, Hgeneric; by intros [? ?]).
  destruct (bool_decide (sensors config = ∅)); [done|].
  case_bool_decide as Hexact.
  { by rewrite bool_decide_eq_true_2 by (by left). }
  destruct (hasWildcards config) eqn:Hwild; cbn [negb].
  - rewrite (bool_decide_ext
               (∃ pattern, pattern ∈ sensors config ∧
                  Strings.Contains pattern "*" = true ∧
                  (pathMatch pattern name).1 = true)
               (name ∈ sensors config ∨
                ∃ pattern, pattern ∈ sensors config ∧ hits name pattern));
      [done|].
    unfold hits. split; [by right|]. by intros [?|?].
  - rewrite bool_decide_eq_false_2; [done|].
    intros [?|(p & Hp & Hstar & _)]; [done|].
    assert (hasWildcards config = true); [|congruence].
    apply Hflag. by exists p.
Qed.

(** The whitelist [*acpi*] as the parser returns it. *)
Lemma isValidSensor_flagged_witness :
  let config :=
    setHasWildcards (addSensor Sample.noConfig "*acpi*") in
  isValidSensor (H := Sample.env) "thermal_acpi_0" config = true ∧
  isValidSensor (H := Sample.env) "cpu_core_0" config = false.
Proof.
  cbv zeta.
  assert (Hflag : wildcardsFlagged
                    (setHasWildcards (addSensor Sample.noConfig "*acpi*"))).
  { split; [|reflexivity]. intros _. exists "*acpi*".
    split; [vm_compute; reflexivity|reflexivity]. }
  split.
  - rewrite (isValidSensor_flagged (H := Sample.env) "thermal_acpi_0" _ Hflag
               eq_refl).
    vm_compute. reflexivity.
  - rewrite (isValidSensor_flagged (H := Sample.env) "cpu_core_0" _ Hflag
               eq_refl).
    vm_compute. reflexivity.
Defined.

(** X9: the polarity turns the verdict round.  For a configuration with
    at least one pattern and a name that is no generic sensor, the
    blacklist accepts the name exactly when the whitelist of the same
    patterns rejects it. *)
Theorem polarity_flips_verdict `{GoEnv} (name : string) (config : SensorConfig) :
  sensors config ≠ ∅ →
  genericSensors config !! name = None →
  isValidSensor name (setPolarity config true)
    = negb (isValidSensor name (setPolarity config false)).
Proof.
  intros Hpatterns Hgeneric. unfold isValidSensor, isValidSensorIn.
  cbn [genericSensors sensors hasWildcards isBlacklist setPolarity].
  rewrite bool_decide_eq_false_2 by (rewrite Hgeneric; by intros [? ?]).
  rewrite bool_decide_eq_false_2
    by (intros Hsize; by apply size_empty_iff, leibniz_equiv_iff in Hsize).
  destruct (bool_decide (name ∈ sensors config)); [done|].
  destruct (hasWildcards config); cbn [negb]; [|done].
  assert (Hscan : ∀ b,
    scanWildcards (elements (sensors config)) name (setPolarity config b)
    = (λ _, negb b) <$> scanWildcards (elements (sensors config)) name config).
  { intros b. induction (elements (sensors config)) as [|p rest IH]; [done|].
    cbn [scanWildcards]. destruct (negb (Strings.Contains p "*")); [done|].
    by destruct (pathMatch p name).1. }
  rewrite !Hscan.
  by destruct (scanWildcards (elements (sensors config)) name config).
Qed.

(** The patterns [cpu_temp] and [gpu_temp], as a blacklist and as a
    whitelist. *)
Lemma polarity_flips_verdict_witness :
  let config := addSensor (addSensor Sample.noConfig "cpu_temp") "gpu_temp" in
  isValidSensor (H := Sample.env) "fan1" (setPolarity config true)
    = negb (isValidSensor (H := Sample.env) "fan1" (setPolarity config false)).
Proof.
  apply (polarity_flips_verdict (H := Sample.env) "fan1").
  - vm_compute. discriminate.
  - reflexivity.
Defined.

(** ** [parseGenericSensor] called on its own *)

Lemma length_append (s t : string) :
  String.length (s +:+ t) = (String.length s + String.length t)%nat.
Proof. induction s as [|c s IH]; [done|]. simpl. by rewrite IH. Qed.

Lemma append_assoc (s t u : string) : (s +:+ t) +:+ u = s +:+ (t +:+ u).
Proof.
  induction s as [|c s IH]; [done|].
  change (String c ((s +:+ t) +:+ u) = String c (s +:+ (t +:+ u))).
  by rewrite IH.
Qed.

Lemma substring_prefix (s t : string) :
  String.substring 0 (String.length s) (s +:+ t) = s.
Proof.
  induction s as [|c s IH]; [by destruct t|]. simpl. by rewrite IH.
Qed.

(** The text between the parentheses. *)
Lemma slice_between (body : string) :
  Strings.slice ("(" +:+ body +:+ ")") 1 (Strings.len ("(" +:+ body +:+ ")") - 1)
    = Ok body.
Proof.
  unfold Strings.slice, Strings.len.
  change ("(" +:+ body +:+ ")") with (String "(" (body +:+ ")")).
  cbn [String.length]. rewrite length_append. cbn [String.length].
  rewrite bool_decide_eq_true_2 by lia. f_equal.
  replace (Z.to_nat (Z.of_nat (S (String.length body + 1)) - 1 - 1))
    with (String.length body) by lia.
  change (Z.to_nat 1) with 1%nat. cbn [String.substring].
  apply substring_prefix.
Qed.

Lemma Split_four (f1 f2 f3 f4 : string) :
  free "," f1 → free "," f2 → free "," f3 → free "," f4 →
  Strings.Split (f1 +:+ "," +:+ f2 +:+ "," +:+ f3 +:+ "," +:+ f4) ","
    = [f1; f2; f3; f4].
Proof.
  intros H1 H2 H3 H4.
  change (f1 +:+ "," +:+ f2 +:+ "," +:+ f3 +:+ "," +:+ f4)
    with (f1 +:+ String "," (f2 +:+ String "," (f3 +:+ String "," f4))).
  rewrite !Split_at_sep by done. by rewrite Split_no_sep.
Qed.

Lemma fourFields_body (f1 f2 f3 f4 : string) :
  fourFields f1 f2 f3 f4
    = "(" +:+ (f1 +:+ "," +:+ f2 +:+ "," +:+ f3 +:+ "," +:+ f4) +:+ ")".
Proof. unfold fourFields. by rewrite !append_assoc. Qed.

Section ParseGenericSensorAlone.
Context `{GoEnv}.

Lemma parseGenericSensor_content sensor config w content :
  Strings.slice sensor 1 (Strings.len sensor - 1) = Ok content →
  (∃ e, parseGenericSensor sensor config w = Return (Some e, config) w) ∨
  (∃ name def,
     parseGenericSensor sensor config w
       = Return (None, setGenericSensor config name def)
           (addLogs w [ {| lvl := Info; msg := "Configured generic sensor";
                           about := name |} ]) ∧
     Name def = name ∧ name ≠ "" ∧ Unit def ≠ "" ∧
     F64.ge (Minimum def) (Maximum def) = false).
Proof.
  intros Hcontent. unfold parseGenericSensor, mbind, Go_bind, lift.
  rewrite Hcontent.
  destruct (Strings.Split content ",") as [|p0 [|p1 [|p2 [|p3 [|p4 ps]]]]];
    try (left; by eexists).
  case_bool_decide as Hname; [left; by eexists|].
  case_bool_decide as Hunit; [left; by eexists|].
  destruct (ParseFloat (Strings.TrimSpace p2)) as [maximum|];
    [|left; by eexists].
  destruct (ParseFloat (Strings.TrimSpace p3)) as [minimum|];
    [|left; by eexists].
  destruct (F64.ge minimum maximum) eqn:Hrange; [left; by eexists|].
  right. eexists _, _. split; [reflexivity|]. done.
Qed.

End ParseGenericSensorAlone.

(** X10: the outcomes of [parseGenericSensor] on any text.  On a text
    shorter than two bytes the slice between the parentheses is out of
    range and the call panics.  On any other text it returns: with an error,
    the configuration and the log as they were; or without one, the
    configuration with one definition written under its own name, one more
    record in the log, and a definition whose name and unit are not empty
    and whose minimum is not greater than or equal to its maximum. *)
Theorem parseGenericSensor_outcomes `{GoEnv} (sensor : string)
    (config : SensorConfig) (w : World) :
  ((String.length sensor < 2)%nat ∧
   ∃ r, parseGenericSensor sensor config w = Panicked r w) ∨
  ((2 ≤ String.length sensor)%nat ∧
   ((∃ e, parseGenericSensor sensor config w = Return (Some e, config) w) ∨
    (∃ name def,
       parseGenericSensor sensor config w
         = Return (None, setGenericSensor config name def)
             (addLogs w [ {| lvl := Info; msg := "Configured generic sensor";
                             about := name |} ]) ∧
       Name def = name ∧ name ≠ "" ∧ Unit def ≠ "" ∧
       F64.ge (Minimum def) (Maximum def) = false))).
Proof.
  destruct (decide (String.length sensor < 2)%nat) as [Hshort|Hlong].
  - left. split; [done|].
    unfold parseGenericSensor, mbind, Go_bind, lift, Strings.slice, Strings.len.
    rewrite bool_decide_eq_false_2 by lia. by eexists.
  - right. split; [lia|].
    apply (parseGenericSensor_content sensor config w
             (String.substring (Z.to_nat 1)
                (Z.to_nat (Strings.len sensor - 1 - 1)) sensor)).
    unfold Strings.slice, Strings.len.
    by rewrite bool_decide_eq_true_2 by lia.
Qed.

(** X11: a text of four fields in parentheses, none with a comma in it,
    whose trimmed name and unit are not empty and whose trimmed bounds
    parse to a maximum and a minimum with the minimum below, is accepted:
    the definition is written under the trimmed name, over any definition
    of that name, and every other field of the configuration is kept. *)
Theorem parseGenericSensor_four_fields `{GoEnv} (f1 f2 f3 f4 : string)
    (maximum minimum : float) (config : SensorConfig) (w : World) :
  free "," f1 → free "," f2 → free "," f3 → free "," f4 →
  Strings.TrimSpace f1 ≠ "" →
  Strings.TrimSpace f2 ≠ "" →
  ParseFloat (Strings.TrimSpace f3) = Some maximum →
  ParseFloat (Strings.TrimSpace f4) = Some minimum →
  F64.ge minimum maximum = false →
  let name := Strings.TrimSpace f1 in
  let def := {| Name := name; Unit := Strings.TrimSpace f2;
                Maximum := maximum; Minimum := minimum |} in
  parseGenericSensor (fourFields f1 f2 f3 f4) config w
    = Return (None, setGenericSensor config name def)
        (addLogs w [ {| lvl := Info; msg := "Configured generic sensor";
                        about := name |} ]) ∧
  genericSensors (setGenericSensor config name def) !! name = Some def ∧
  sensors (setGenericSensor config name def) = sensors config.
Proof.
  intros H1 H2 H3 H4 Hname Hunit Hmax Hmin Hrange. cbv zeta.
  split; [|split; [apply lookup_insert_eq|done]].
  unfold parseGenericSensor, mbind, Go_bind, lift.
  rewrite fourFields_body, slice_between, Split_four by done.
  rewrite !bool_decide_eq_false_2 by done.
  by rewrite Hmax, Hmin, Hrange.
Qed.

(** The token [(pressure, Pa ,1000,0)]. *)
Lemma parseGenericSensor_four_fields_witness :
  returned
    (parseGenericSensor (H := Sample.env)
       (fourFields "pressure" " Pa " "1000" "0") Sample.noConfig
       (Sample.world ∅))
  = Some (None,
          setGenericSensor Sample.noConfig "pressure"
            {| Name := "pressure"; Unit := "Pa";
               Maximum := 1000; Minimum := 0 |}).
Proof.
  rewrite (proj1 (parseGenericSensor_four_fields (H := Sample.env)
                    "pressure" " Pa " "1000" "0" 1000 0 Sample.noConfig
                    (Sample.world ∅)
                    eq_refl eq_refl eq_refl eq_refl
                    ltac:(vm_compute; discriminate)
                    ltac:(vm_compute; discriminate)
                    eq_refl eq_refl eq_refl)).
  reflexivity.
Defined.

(** ** [newSensorConfig]: the variable that is set but empty *)

(** X12: [SENSORS] set to the empty text is told apart from [SENSORS] not
    set.  The configuration read from the environment skips collection
    exactly when the variable is set and empty; then a cycle leaves the
    agent and the snapshot as they are and does not invoke the source.
    When the value is empty and the variable is not set, collection is not
    skipped and the filter accepts every name. *)
Theorem newSensorConfig_skips_when_set_empty `{GoEnv}
    (GetEnv : string → string * bool) (w : World) :
  ∃ config l,
    newSensorConfig GetEnv w = Return config (addLogs w l) ∧
    primarySensor config = (GetEnv "PRIMARY_SENSOR").1 ∧
    skipCollection config
      = (GetEnv "SENSORS").2 && bool_decide ((GetEnv "SENSORS").1 = "") ∧
    (skipCollection config = true →
       ∀ source a systemStats w0, sensorConfig a = config →
         updateTemperatures source a systemStats w0
           = Return (a, systemStats)
               (addLogs w0 [ {| lvl := Debug;
                                msg := "Skipping temperature collection";
                                about := "" |} ])) ∧
    ((GetEnv "SENSORS").1 = "" →
       sensors config = ∅ ∧ ∀ name, isValidSensor name config = true).
Proof.
  unfold newSensorConfig.
  destruct (GetEnv "PRIMARY_SENSOR") as [primary ?].
  destruct (GetEnv "SYS_SENSORS") as [sys ?].
  destruct (GetEnv "SENSORS") as [value set].
  destruct (newSensorConfigWithEnv_fields primary sys value
              (set && bool_decide (value = "")) w)
    as (config & l & Hrun & Hs & Hb & Hw & Hf & Hg & Hp & Hk & Hc).
  exists config, l. split; [done|]. split; [done|]. split; [done|]. split.
  - intros Hskip source a systemStats w0 <-.
    by rewrite updateTemperatures_cases, Hskip.
  - cbn [fst]. intros ->.
    assert (Hempty : sensors config = ∅) by (by rewrite Hs).
    split; [done|]. intros name.
    unfold isValidSensor, isValidSensorIn.
    destruct (bool_decide (is_Some (genericSensors config !! name))); [done|].
    by rewrite bool_decide_eq_true_2 by (by rewrite Hempty).
Qed.

(** ** Where a sensor is read from *)

(** X13: a sensor whose name is one path element, other than [.] and
    [..], is read from [/generic-sensors/<name>]; the name is not confined
    to that directory, for a name [../<name>] is read from [/<name>]. *)
Theorem sensor_file_path (name : string) :
  free "/" name → name ≠ "" → name ≠ "." → name ≠ ".." →
  Filepath.Join "/generic-sensors" name = "/generic-sensors/" +:+ name ∧
  Filepath.Join "/generic-sensors" ("../" +:+ name) = "/" +:+ name ∧
  ∀ `{GoEnv} config w e data value,
    fs w !! ("/" +:+ name) = Some e → contents e = Some data →
    ParseFloat (Strings.TrimSpace data) = Some value →
    collectGenericSensorValue ("../" +:+ name) config w
      = Return (value, None) w.
Proof.
  intros Hslash Hne Hdot Hdots.
  assert (Hup : Filepath.Join "/generic-sensors" ("../" +:+ name) = "/" +:+ name).
  { unfold Filepath.Join.
    change ("/generic-sensors" +:+ "/" +:+ "../" +:+ name)
      with ("" +:+ String "/" ("generic-sensors" +:+ String "/"
                                 (".." +:+ String "/" name))).
    rewrite !Split_at_sep by reflexivity.
    rewrite (Split_no_sep name "/" Hslash).
    cbn [fold_left]. unfold Filepath.cleanStep at 1 2 3 4.
    rewrite (bool_decide_eq_true_2 ("" = "" ∨ "" = ".")) by (by left).
    rewrite (bool_decide_eq_false_2 ("generic-sensors" = "" ∨ _))
      by (by intros [|]).
    rewrite (bool_decide_eq_false_2 ("generic-sensors" = "..")) by done.
    rewrite (bool_decide_eq_false_2 (".." = "" ∨ _)) by (by intros [|]).
    rewrite (bool_decide_eq_true_2 (".." = "..")) by done.
    rewrite (bool_decide_eq_false_2 (name = "" ∨ _)) by (by intros [|]).
    rewrite (bool_decide_eq_false_2 (name = "..")) by done.
    reflexivity. }
  split; [by apply Join_plain_name|]. split; [done|].
  intros ? config w e data value Hentry Hdata Hparse.
  rewrite (collectGenericSensorValue_text _ config w e data)
    by (by rewrite ?Hup).
  by rewrite Hparse.
Qed.

(** The name [../etc/..] is not one path element and is kept out; the
    name [passwd] is one, so that [../passwd] is read from [/passwd]. *)
Lemma sensor_file_path_witness :
  Filepath.Join "/generic-sensors" "passwd" = "/generic-sensors/passwd" ∧
  Filepath.Join "/generic-sensors" "../passwd" = "/passwd".
Proof.
  destruct (sensor_file_path "passwd" eq_refl
              ltac:(discriminate) ltac:(discriminate) ltac:(discriminate))
    as (Hin & Hup & _).
  split; [exact Hin|exact Hup].
Defined.

(** ** Reading a file: white space around the number *)

Lemma rev_app_append (s t : string) :
  String.rev_app s t = String.rev s +:+ t.
Proof.
  unfold String.rev. revert t. induction s as [|c s IH]; intros t; [done|].
  cbn [String.rev_app]. rewrite (IH (String c t)), (IH (String c "")).
  by rewrite append_assoc.
Qed.

Lemma rev_cons (c : ascii) (s : string) :
  String.rev (String c s) = String.rev s +:+ String c "".
Proof. unfold String.rev at 1. cbn [String.rev_app]. apply rev_app_append. Qed.

Lemma append_nil_r (s : string) : s +:+ "" = s.
Proof.
  induction s as [|c s IH]; [done|].
  change (String c (s +:+ "") = String c s). by rewrite IH.
Qed.

Lemma rev_append (s t : string) :
  String.rev (s +:+ t) = String.rev t +:+ String.rev s.
Proof.
  induction s as [|c s IH]; [by rewrite append_nil_r|].
  change (String c s +:+ t) with (String c (s +:+ t)).
  by rewrite !rev_cons, IH, append_assoc.
Qed.

Lemma rev_involutive (s : string) : String.rev (String.rev s) = s.
Proof.
  induction s as [|c s IH]; [done|].
  by rewrite rev_cons, rev_append, IH.
Qed.

Lemma length_rev (s : string) : String.length (String.rev s) = String.length s.
Proof.
  induction s as [|c s IH]; [done|].
  rewrite rev_cons, length_append, IH. simpl. lia.
Qed.

Lemma asciiBlank_cons (c : ascii) (s : string) :
  asciiBlank (String c s) ↔ Strings.asciiSpace c = true ∧ asciiBlank s.
Proof.
  unfold asciiBlank. cbn [list_ascii_of_string]. split.
  - by inversion 1.
  - intros [? ?]. by constructor.
Qed.

Lemma asciiBlank_append (s t : string) :
  asciiBlank s → asciiBlank t → asciiBlank (s +:+ t).
Proof.
  intros Hs Ht. induction s as [|c s IH]; [done|].
  apply asciiBlank_cons in Hs as [Hc Hs].
  change (String c s +:+ t) with (String c (s +:+ t)).
  apply asciiBlank_cons. split; [done|]. by apply IH.
Qed.

Lemma asciiBlank_rev (s : string) : asciiBlank s → asciiBlank (String.rev s).
Proof.
  induction s as [|c s IH]; [done|]. intros [Hc Hs]%asciiBlank_cons.
  rewrite rev_cons. apply asciiBlank_append; [by apply IH|].
  apply asciiBlank_cons. split; [done|]. by apply Forall_nil.
Qed.

(** Before a solid byte no white space rune is found. *)
Lemma stripSpace_solid encs (c : ascii) (s : string) :
  startHigh encs = true → solid c →
  Strings.stripSpace encs (String c s) = None.
Proof.
  intros Hencs [Hspace Hascii]. unfold Strings.stripSpace. rewrite Hspace.
  induction encs as [|e encs IH]; [done|].
  cbn [startHigh forallb] in Hencs. apply andb_true_iff in Hencs as [He Hencs].
  cbn [Strings.firstSome]. destruct e as [|d e]; [done|].
  cbn [Strings.dropPrefix].
  rewrite bool_decide_eq_false_2; [by apply IH|].
  intros ->. rewrite Hascii in He. discriminate He.
Qed.

Lemma trimFront_blank encs (blank : string) (c : ascii) (s : string) fuel :
  startHigh encs = true → asciiBlank blank → solid c →
  (String.length blank ≤ fuel)%nat →
  Strings.trimFront encs fuel (blank +:+ String c s) = String c s.
Proof.
  intros Hencs Hblank Hsolid. revert fuel.
  induction blank as [|a blank IH]; intros fuel Hfuel.
  - change ("" +:+ String c s) with (String c s).
    destruct fuel as [|fuel]; [done|].
    cbn [Strings.trimFront]. by rewrite stripSpace_solid.
  - apply asciiBlank_cons in Hblank as [Ha Hblank].
    destruct fuel as [|fuel]; [simpl in Hfuel; lia|].
    change (String a blank +:+ String c s) with (String a (blank +:+ String c s)).
    cbn [Strings.trimFront]. unfold Strings.stripSpace. rewrite Ha.
    apply IH; [done|]. simpl in Hfuel. lia.
Qed.

(** White space of ASCII around a text that starts and ends with solid
    bytes is trimmed, and nothing else is. *)
Lemma TrimSpace_around (before after : string) (c d : ascii)
    (rest init : string) :
  asciiBlank before → asciiBlank after → solid c → solid d →
  String c rest = init +:+ String d "" →
  Strings.TrimSpace (before +:+ String c rest +:+ after) = String c rest.
Proof.
  intros Hbefore Hafter Hc Hd Hends.
  unfold Strings.TrimSpace.
  assert (Hleft : Strings.TrimLeftSpace (before +:+ String c rest +:+ after)
                  = String c (rest +:+ after)).
  { unfold Strings.TrimLeftSpace.
    change (String c rest +:+ after) with (String c (rest +:+ after)).
    apply trimFront_blank; [reflexivity|done|done|].
    rewrite length_append. lia. }
  rewrite Hleft. unfold Strings.TrimRightSpace.
  change (String c (rest +:+ after)) with (String c rest +:+ after).
  rewrite rev_append, Hends, rev_append.
  change (String.rev (String d "")) with (String d "").
  change (String d "" +:+ String.rev init) with (String d (String.rev init)).
  rewrite trimFront_blank; [|reflexivity|by apply asciiBlank_rev|done|].
  - change (String d (String.rev init)) with (String d "" +:+ String.rev init).
    change (String d "") with (String.rev (String d "")).
    by rewrite <- rev_append, rev_involutive.
  - rewrite length_rev, !length_append. lia.
Qed.

(** X14: a file that holds a text between ASCII white space, line feeds
    included, is read as the text alone, when the text starts and ends
    with ASCII bytes that are no white space: the value is the number the
    text parses to, and the error names the text when it does not parse. *)
Theorem ReadSensorFromFile_trims `{GoEnv} (filePath : string) (w : World)
    (e : DirEntry) (before after : string) (c d : ascii) (rest init : string) :
  fs w !! filePath = Some e →
  contents e = Some (before +:+ String c rest +:+ after) →
  asciiBlank before → asciiBlank after → solid c → solid d →
  String c rest = init +:+ String d "" →
  ReadSensorFromFile filePath w =
    Return
      (match ParseFloat (String c rest) with
       | Some value => (value, None)
       | None => (0%float, Some (ErrParseValue (String c rest) filePath))
       end) w.
Proof.
  intros Hentry Hdata Hbefore Hafter Hc Hd Hends.
  unfold ReadSensorFromFile, osReadFile, mbind, Go_bind, mret, Go_ret.
  rewrite Hentry, Hdata.
  rewrite (TrimSpace_around before after c d rest init) by done.
  by destruct (ParseFloat (String c rest)).
Qed.

(** The file that [echo " 850.5"] writes, with a tab before it. *)
Lemma ReadSensorFromFile_trims_witness :
  let data := String "009" " 850.5" +:+ nl in
  ReadSensorFromFile (H := Sample.env) "/generic-sensors/pressure"
    (Sample.world {[ "/generic-sensors/pressure" := Sample.plainFile data ]})
  = Return (850.5%float, None)
      (Sample.world {[ "/generic-sensors/pressure" := Sample.plainFile data ]}).
Proof.
  cbv zeta.
  refine (eq_trans
            (ReadSensorFromFile_trims (H := Sample.env)
               "/generic-sensors/pressure"
               (Sample.world
                  {[ "/generic-sensors/pressure" :=
                       Sample.plainFile (String "009" " 850.5" +:+ nl) ]})
               (Sample.plainFile (String "009" " 850.5" +:+ nl))
               (String "009" " ") nl "8" "5" "50.5" "850."
               _ _ _ _ _ _ _) _).
  - vm_compute. reflexivity.
  - reflexivity.
  - repeat constructor.
  - repeat constructor.
  - split; reflexivity.
  - split; reflexivity.
  - reflexivity.
  - vm_compute. reflexivity.
Defined.

(** ** The exported constructor and the generic sensors *)

(** X15: whatever the configuration string, the configuration the exported
    constructor returns has no generic sensor: [GetGenericSensors] is
    empty, [GetGenericSensorNames] lists no name, and the generic sensor
    collector of an agent with that configuration leaves the snapshot and
    the world as they are. *)
Theorem exported_parser_configures_no_generic_sensor `{GoEnv}
    (primarySensor0 sysSensors sensorsEnvVal : string) (skip : bool) (w : World) :
  ∃ config l,
    NewSensorConfigWithEnv primarySensor0 sysSensors sensorsEnvVal skip w
      = Return config (addLogs w l) ∧
    GetGenericSensors config = ∅ ∧
    ∀ a, sensorConfig a = config →
      GetGenericSensorNames a = [] ∧
      ∀ systemStats w0,
        updateGenericSensors a systemStats w0 = Return systemStats w0.
Proof.
  unfold NewSensorConfigWithEnv, GetGenericSensors.
  destruct (newSensorConfigWithEnv_fields primarySensor0 sysSensors
              sensorsEnvVal skip w)
    as (config & l & Hrun & _ & _ & _ & _ & Hgeneric & _).
  exists config, l. split; [done|]. split; [done|].
  intros a <-. split.
  - unfold GetGenericSensorNames. by rewrite Hgeneric, map_to_list_empty.
  - intros systemStats w0. unfold updateGenericSensors.
    by rewrite Hgeneric, bool_decide_eq_true_2 by done.
Qed.
